(** * A shallow embedding of the heatmap matrix panel (src/HeatmapPanel.tsx)

    The panel turns a pivoted data frame into a matrix of coloured, labelled
    cells.  Its logic is the derivation of a cell's values ([getValues]), the
    two colour policies ([colorChange], [colorHeatmap]) and the click handler
    that cycles between them ([toggleColoring]).

    JavaScript numbers are IEEE 754 binary64 values, so they are embedded as
    Rocq's primitive floats; strings are ASCII strings.  The parts of the
    ECMAScript library and of d3 that the panel calls (d3 version 5 with the
    d3-scale 2.2 it brings, where a scale applied to [NaN] gives its
    [unknown] value, [undefined]) are modelled in the modules [JS] and [D3]; the panel itself follows the
    source file top to bottom in the section [Panel]. *)

From Stdlib Require Import ZArith List String Ascii Bool Lia.
From Stdlib Require Import Floats.
Import ListNotations.

Local Open Scope string_scope.
Local Open Scope Z_scope.

(* Decimal literals such as 0.7 stand for the nearest double, as in JavaScript. *)
#[local] Set Warnings "-inexact-float".

(** ** Errors: a thrown exception ends the computation *)

Inductive JsError : Type :=
| TypeError (msg : string)
| Error (msg : string).

Inductive result (A : Type) : Type :=
| Ok (a : A)
| Throw (e : JsError).

Arguments Ok {A} a.
Arguments Throw {A} e.

Definition bind {A B : Type} (r : result A) (k : A -> result B) : result B :=
  match r with
  | Ok a => k a
  | Throw e => Throw e
  end.

Notation "'let*' x ':=' r 'in' k" := (bind r (fun x => k))
  (at level 10, x pattern, r at level 100, k at level 200).

Fixpoint mapM {A B : Type} (f : A -> result B) (l : list A) : result (list B) :=
  match l with
  | [] => Ok []
  | a :: l' => let* b := f a in let* bs := mapM f l' in Ok (b :: bs)
  end.

(** ** The ECMAScript operations the panel relies on *)

Module JS.

(** *** Exact arithmetic behind a double *)

(** An integer as an (unrounded) binary float. *)
Definition Z2SF (n : Z) : spec_float :=
  match n with
  | Z0 => S754_zero false
  | Zpos p => S754_finite false p 0
  | Zneg p => S754_finite true p 0
  end.

(** The double nearest to the rational [num / den] ([den > 0]), ties to even:
    the value a decimal literal denotes. *)
Definition nearest_double (num den : Z) : float :=
  SF2Prim (SFdiv prec emax (Z2SF num) (Z2SF den)).

(** The magnitude [m * 2 ^ e] of a finite double as a fraction. *)
Definition numerator (m : positive) (e : Z) : Z :=
  if 0 <=? e then Zpos m * 2 ^ e else Zpos m.

Definition denominator (e : Z) : Z :=
  if 0 <=? e then 1 else 2 ^ (- e).

(** [floor (num / den + 1/2)]: the nearest integer, the larger one at a tie. *)
Definition round_half_up (num den : Z) : Z := (2 * num + den) / (2 * den).

(** The value [s * 10 ^ j] as a double. *)
Definition decimal_value (s j : Z) : float :=
  if 0 <=? j then nearest_double (s * 10 ^ j) 1 else nearest_double s (10 ^ (- j)).

(** *** Truthiness and the Math object *)

(** ToBoolean on a number: [0], [-0] and [NaN] are falsy. *)
Definition ToBoolean (x : float) : bool := negb ((x =? 0)%float || is_nan x).

(** [a || b] on numbers. *)
Definition or_else (a b : float) : float := if ToBoolean a then a else b.

Definition Math_abs (x : float) : float := abs x.

(** Math.round: the nearest integer, ties towards plus infinity. *)
Definition Math_round (x : float) : float :=
  match Prim2SF x with
  | S754_finite s m e =>
      if 0 <=? e then x
      else
        let n := round_half_up (if s then - Zpos m else Zpos m) (2 ^ (- e)) in
        if n =? 0 then (if s then (-0)%float else 0%float) else nearest_double n 1
  | _ => x
  end.

(** Math.min and Math.max of two numbers: [NaN] is contagious, [-0 < +0]. *)
Definition Math_min (a b : float) : float :=
  if is_nan a || is_nan b then nan
  else if (a <? b)%float then a
  else if (b <? a)%float then b
  else if get_sign a then a else b.

Definition Math_max (a b : float) : float :=
  if is_nan a || is_nan b then nan
  else if (a <? b)%float then b
  else if (b <? a)%float then a
  else if get_sign a then b else a.

(** *** Decimal digits *)

Fixpoint digits_fuel (fuel : nat) (n : Z) (acc : list Z) : list Z :=
  match fuel with
  | O => n :: acc
  | S fuel' =>
      if n <? 10 then n :: acc else digits_fuel fuel' (n / 10) (n mod 10 :: acc)
  end.

(** The decimal digits of [n >= 0], most significant first ([0] gives [[0]]). *)
Definition digits (n : Z) : list Z := digits_fuel (Z.to_nat (Z.log2 n)) n [].

Definition digit_char (d : Z) : ascii := ascii_of_N (Z.to_N (48 + d)).

Fixpoint string_of_digits (ds : list Z) : string :=
  match ds with
  | [] => ""
  | d :: ds' => String (digit_char d) (string_of_digits ds')
  end.

Definition digits_value (ds : list Z) : Z :=
  fold_left (fun acc d => 10 * acc + d) ds 0.

Definition zeros (k : nat) : list Z := repeat 0 k.

(** *** Number::toString (radix 10) *)

(** [x >= 10 ^ k] for the fraction [x = num / den]. *)
Definition ge_pow10 (num den k : Z) : bool :=
  if 0 <=? k then den * 10 ^ k <=? num else den <=? num * 10 ^ (- k).

(** The [n] with [10 ^ (n - 1) <= num / den < 10 ^ n], searched downwards or
    upwards from [n]. *)
Fixpoint order_down (fuel : nat) (num den n : Z) : Z :=
  match fuel with
  | O => n
  | S fuel' => if ge_pow10 num den (n - 1) then n else order_down fuel' num den (n - 1)
  end.

Definition decimal_order (num den : Z) : Z :=
  if den <=? num then Z.of_nat (List.length (digits (num / den)))
  else order_down 400 num den 0.

(** [floor (x / 10 ^ j)]. *)
Definition scaled_floor (num den j : Z) : Z :=
  if 0 <=? j then num / (den * 10 ^ j) else (num * 10 ^ (- j)) / den.

(** How [x] compares with the midpoint of [lo * 10 ^ j] and [(lo + 1) * 10 ^ j]. *)
Definition compare_midpoint (num den lo j : Z) : comparison :=
  if 0 <=? j then 2 * num ?= (2 * lo + 1) * 10 ^ j * den
  else 2 * num * 10 ^ (- j) ?= (2 * lo + 1) * den.

(** The shortest digit string [s] (with [k] digits, [k] as small as possible)
    and the order [n] such that [s * 10 ^ (n - k)] reads back as [x]; among
    several [s] the one closest to [x], the even one at a tie. *)
Fixpoint shortest (fuel : nat) (k : Z) (x : float) (num den n : Z) : Z * Z :=
  let j := n - k in
  let lo := scaled_floor num den j in
  match fuel with
  | O => (lo, n)
  | S fuel' =>
      let hi := lo + 1 in
      let up := if hi =? 10 ^ k then (10 ^ (k - 1), n + 1) else (hi, n) in
      match (decimal_value lo j =? x)%float, (decimal_value hi j =? x)%float with
      | true, false => (lo, n)
      | false, true => up
      | true, true =>
          match compare_midpoint num den lo j with
          | Lt => (lo, n)
          | Gt => up
          | Eq => if Z.even lo then (lo, n) else up
          end
      | false, false => shortest fuel' (k + 1) x num den n
      end
  end.

Definition exponent_part (e : Z) : string :=
  "e" ++ (if e <? 0 then "-" else "+") ++ string_of_digits (digits (Z.abs e)).

Definition NumberToString_finite (x : float) (m : positive) (e : Z) : string :=
  let num := numerator m e in
  let den := denominator e in
  let '(s, n) := shortest 17 1 x num den (decimal_order num den) in
  let ds := digits s in
  let k := Z.of_nat (List.length ds) in
  if (k <=? n) && (n <=? 21) then
    string_of_digits (ds ++ zeros (Z.to_nat (n - k)))%list
  else if (0 <? n) && (n <=? 21) then
    string_of_digits (firstn (Z.to_nat n) ds) ++ "." ++ string_of_digits (skipn (Z.to_nat n) ds)
  else if (-6 <? n) && (n <=? 0) then
    "0." ++ string_of_digits (zeros (Z.to_nat (- n)) ++ ds)%list
  else if k =? 1 then
    string_of_digits ds ++ exponent_part (n - 1)
  else
    string_of_digits (firstn 1 ds) ++ "." ++ string_of_digits (skipn 1 ds)
      ++ exponent_part (n - 1).

Definition NumberToString (x : float) : string :=
  match Prim2SF x with
  | S754_nan => "NaN"
  | S754_zero _ => "0"
  | S754_infinity s => if s then "-Infinity" else "Infinity"
  | S754_finite s m e =>
      (if s then "-" else "") ++ NumberToString_finite (Math_abs x) m e
  end.

(** *** Number.prototype.toFixed *)

(** The digits of [n] with a decimal point before the last [f] of them. *)
Definition fixed_digits (n : Z) (f : nat) : string :=
  match f with
  | O => string_of_digits (digits n)
  | S _ =>
      let ds := digits n in
      let ds := (zeros (S f - List.length ds) ++ ds)%list in
      let k := List.length ds in
      string_of_digits (firstn (k - f) ds) ++ "." ++ string_of_digits (skipn (k - f) ds)
  end.

Definition toFixed (x : float) (f : nat) : string :=
  match Prim2SF x with
  | S754_nan => "NaN"
  | S754_infinity s => if s then "-Infinity" else "Infinity"
  | S754_zero _ => fixed_digits 0 f
  | S754_finite s m e =>
      (if s then "-" else "") ++
      (if (1e21 <=? Math_abs x)%float then NumberToString_finite (Math_abs x) m e
       else fixed_digits (round_half_up (numerator m e * 10 ^ Z.of_nat f) (denominator e)) f)
  end.

(** *** Reading a number: StrDecimalLiteral, parseFloat and ToNumber *)

Definition digit_of (c : ascii) : option Z :=
  let n := Z.of_N (N_of_ascii c) in
  if (48 <=? n) && (n <=? 57) then Some (n - 48) else None.

(** The longest run of decimal digits at the head of [s], and what follows. *)
Fixpoint span_digits (s : string) : list Z * string :=
  match s with
  | String c r =>
      match digit_of c with
      | Some d => let '(ds, r') := span_digits r in (d :: ds, r')
      | None => ([], s)
      end
  | EmptyString => ([], s)
  end.

(** [strip_prefix p s] is what follows [p] in [s], when [s] starts with [p]. *)
Fixpoint strip_prefix (p s : string) : option string :=
  match p, s with
  | EmptyString, _ => Some s
  | String a p', String b s' => if Ascii.eqb a b then strip_prefix p' s' else None
  | String _ _, EmptyString => None
  end.

(** The ASCII members of WhiteSpace and LineTerminator. *)
Definition is_space (c : ascii) : bool :=
  let n := Z.of_N (N_of_ascii c) in
  ((9 <=? n) && (n <=? 13)) || (n =? 32).

Fixpoint trim_start (s : string) : string :=
  match s with
  | String c r => if is_space c then trim_start r else s
  | EmptyString => s
  end.

Fixpoint all_space (s : string) : bool :=
  match s with
  | String c r => is_space c && all_space r
  | EmptyString => true
  end.

(** What an unsigned decimal literal denotes: [Infinity] or [N * 10 ^ E]. *)
Inductive literal : Type :=
| LitInfinity
| LitDecimal (N E : Z).

(** An exponent part at the head of [s], if there is one: its value and the
    rest; otherwise exponent [0] and [s] itself. *)
Definition exponent_opt (s : string) : Z * string :=
  match s with
  | String c r =>
      if Ascii.eqb c "e" || Ascii.eqb c "E" then
        let '(neg, r1) :=
          match r with
          | String "+" r' => (false, r')
          | String "-" r' => (true, r')
          | _ => (false, r)
          end in
        match span_digits r1 with
        | ([], _) => (0, s)
        | (ds, r2) => ((if neg then - digits_value ds else digits_value ds), r2)
        end
      else (0, s)
  | EmptyString => (0, s)
  end.

(** The longest prefix of [s] that is a StrUnsignedDecimalLiteral, with the
    rest of [s]. *)
Definition unsigned_literal (s : string) : option (literal * string) :=
  match strip_prefix "Infinity" s with
  | Some r => Some (LitInfinity, r)
  | None =>
      let '(ip, r1) := span_digits s in
      let '(fp, r2) :=
        match r1 with
        | String "." r =>
            match ip, span_digits r with
            | [], ([], _) => ([], r1)
            | _, (fp, r2) => (fp, r2)
            end
        | _ => ([], r1)
        end in
      match ip, fp with
      | [], [] => None
      | _, _ =>
          let '(ex, r3) := exponent_opt r2 in
          Some (LitDecimal (digits_value (ip ++ fp)%list) (ex - Z.of_nat (List.length fp)), r3)
      end
  end.

Definition literal_value (neg : bool) (l : literal) : float :=
  let x :=
    match l with
    | LitInfinity => infinity
    | LitDecimal N E => decimal_value N E
    end in
  if neg then (- x)%float else x.

(** The longest prefix of [s] that is a StrDecimalLiteral: its value and the
    rest of [s]. *)
Definition decimal_literal (s : string) : option (float * string) :=
  let '(neg, r) :=
    match s with
    | String "+" r => (false, r)
    | String "-" r => (true, r)
    | _ => (false, s)
    end in
  match unsigned_literal r with
  | Some (l, r') => Some (literal_value neg l, r')
  | None => None
  end.

(** parseFloat: leading white space is skipped, what follows the longest
    decimal literal is ignored, and no literal at all gives [NaN]. *)
Definition parseFloat (s : string) : float :=
  match decimal_literal (trim_start s) with
  | Some (x, _) => x
  | None => nan
  end.

(** The digits of a [0x], [0o] or [0b] literal. *)
Definition radix_digit_of (radix : Z) (c : ascii) : option Z :=
  let n := Z.of_N (N_of_ascii c) in
  let d :=
    if (48 <=? n) && (n <=? 57) then n - 48
    else if (97 <=? n) && (n <=? 102) then n - 87
    else if (65 <=? n) && (n <=? 70) then n - 55
    else radix in
  if d <? radix then Some d else None.

Fixpoint radix_value (radix : Z) (s : string) (acc : Z) : option Z :=
  match s with
  | EmptyString => Some acc
  | String c r =>
      match radix_digit_of radix c with
      | Some d => radix_value radix r (radix * acc + d)
      | None => None
      end
  end.

Fixpoint trim_end (s : string) : string :=
  match s with
  | String c r => if all_space s then EmptyString else String c (trim_end r)
  | EmptyString => s
  end.

Definition radix_of (c : ascii) : Z :=
  if Ascii.eqb c "x" || Ascii.eqb c "X" then 16
  else if Ascii.eqb c "o" || Ascii.eqb c "O" then 8
  else if Ascii.eqb c "b" || Ascii.eqb c "B" then 2
  else 0.

(** A [0x], [0o] or [0b] literal with at least one digit. *)
Definition radix_literal (s : string) : option float :=
  match s with
  | String z (String c r) =>
      if Ascii.eqb z "0" && negb (radix_of c =? 0) then
        match r with
        | EmptyString => None
        | _ => option_map (fun n => nearest_double n 1) (radix_value (radix_of c) r 0)
        end
      else None
  | _ => None
  end.

(** ToNumber on a string: the whole of it, white space at both ends apart,
    must be a numeric literal; the empty string reads as [0]. *)
Definition StringToNumber (s : string) : float :=
  let t := trim_end (trim_start s) in
  match t with
  | EmptyString => 0%float
  | _ =>
      match radix_literal t with
      | Some x => x
      | None =>
          match decimal_literal t with
          | Some (x, EmptyString) => x
          | _ => nan
          end
      end
  end.

(** *** Values a data frame holds *)

Inductive jsval : Type :=
| JUndefined
| JNull
| JNumber (x : float)
| JString (s : string).

Definition ToNumber (v : jsval) : float :=
  match v with
  | JUndefined => nan
  | JNull => 0%float
  | JNumber x => x
  | JString s => StringToNumber s
  end.

(** [v != null]. *)
Definition not_nullish (v : jsval) : bool :=
  match v with
  | JUndefined | JNull => false
  | _ => true
  end.

(** [a < b]: two strings compare as strings, anything else as numbers. *)
Definition js_lt (a b : jsval) : bool :=
  match a, b with
  | JString s, JString t => String.ltb s t
  | _, _ => (ToNumber a <? ToNumber b)%float
  end.

Definition js_gt (a b : jsval) : bool := js_lt b a.

(** [a >= b]. *)
Definition js_ge (a b : jsval) : bool :=
  match a, b with
  | JString s, JString t => negb (String.ltb s t)
  | _, _ => (ToNumber b <=? ToNumber a)%float
  end.

(** [array[i]] (and an [ArrayVector]'s [get]): [undefined] off the ends. *)
Definition index {A : Type} (l : list A) (i : Z) : option A :=
  if i <? 0 then None else nth_error l (Z.to_nat i).

End JS.

(** ** The d3 functions the panel calls (d3 version 5) *)

Module D3.

Import JS.

(** *** d3-array *)

(** d3.sum: entries whose number is falsy ([0], [NaN]) are skipped. *)
Definition sum (values : list jsval) : float :=
  fold_left
    (fun sum v => let value := ToNumber v in
                  if ToBoolean value then (sum + value)%float else sum)
    values 0%float.

(** d3.extent, second loop: the remaining values against [min] and [max]. *)
Fixpoint extent_rest (values : list jsval) (min max : jsval) : jsval * jsval :=
  match values with
  | [] => (min, max)
  | value :: rest =>
      if not_nullish value then
        extent_rest rest (if js_gt min value then value else min)
                         (if js_lt max value then value else max)
      else extent_rest rest min max
  end.

(** d3.extent: [[min, max]], both [undefined] when nothing is comparable. *)
Fixpoint extent (values : list jsval) : jsval * jsval :=
  match values with
  | [] => (JUndefined, JUndefined)
  | value :: rest =>
      if not_nullish value && js_ge value value then extent_rest rest value value
      else extent rest
  end.

(** d3.range(stop). *)
Definition range (stop : nat) : list Z := map Z.of_nat (seq 0 stop).

(** d3.bisectRight(a, x, lo, hi) with the [ascending] comparator. *)
Definition ascending (a b : float) : float :=
  (if a <? b then -1 else if b <? a then 1 else if b <=? a then 0 else nan)%float.

Fixpoint bisect_loop (fuel : nat) (a : list float) (x : float) (lo hi : Z) : Z :=
  match fuel with
  | O => lo
  | S fuel' =>
      if lo <? hi then
        let mid := Z.shiftr (lo + hi) 1 in
        let a_mid := match index a mid with Some y => y | None => nan end in
        if (0 <? ascending a_mid x)%float then bisect_loop fuel' a x lo mid
        else bisect_loop fuel' a x (mid + 1) hi
      else lo
  end.

Definition bisectRight (a : list float) (x : float) (lo hi : Z) : Z :=
  bisect_loop (List.length a) a x lo hi.

(** *** d3-format: the fixed-point types [f] and [%] *)

(** [d3.format("." + p + "f")] ([percent = false]) and
    [d3.format("." + p + "%")] ([percent = true]): the magnitude through
    [toFixed], a minus sign (the ASCII hyphen of d3-format 1.x) unless the
    text reads as zero, no grouping, no padding. *)
Definition format_fixed (percent : bool) (p : nat) (v : jsval) : string :=
  let value := ToNumber v in
  let valueNegative := ((value <? 0) || (1 / value <? 0))%float in
  let text :=
    if is_nan value then "NaN"
    else toFixed (if percent then Math_abs value * 100 else Math_abs value)%float p in
  let valueNegative :=
    if valueNegative && (StringToNumber text =? 0)%float then false else valueNegative in
  (if valueNegative then "-" else "") ++ text ++ (if percent then "%" else "").

(** *** d3-color and d3-interpolate *)

Record rgb : Type := RGB { r : float; g : float; b : float }.

(** The colours the panel names, as d3-color reads them. *)
Definition red : rgb := RGB 255 0 0.
Definition green : rgb := RGB 0 128 0.
Definition pale_yellow : rgb := RGB 250 248 193.

Definition channel (v : float) : string :=
  NumberToString (Math_max 0 (Math_min 255 (or_else (Math_round v) 0))).

(** An opaque colour as text: [rgb(r, g, b)]. *)
Definition rgb_toString (c : rgb) : string :=
  "rgb(" ++ channel (r c) ++ ", " ++ channel (g c) ++ ", " ++ channel (b c) ++ ")".

(** One channel of interpolateRgb (gamma 1). *)
Definition nogamma (a b t : float) : float :=
  let d := (b - a)%float in
  if ToBoolean d then (a + t * d)%float else if is_nan a then b else a.

Definition interpolateRgb (start end_ : rgb) (t : float) : string :=
  rgb_toString
    (RGB (nogamma (r start) (r end_) t)
         (nogamma (g start) (g end_) t)
         (nogamma (b start) (b end_) t)).

(** interpolateNumber. *)
Definition interpolateNumber (a b t : float) : float := (a * (1 - t) + b * t)%float.

(** *** d3-scale (2.2) *)

(** [normalize(a, b)] of continuous.js. *)
Definition normalize (a b x : float) : float :=
  let b := (b - a)%float in
  if ToBoolean b then ((x - a) / b)%float else if is_nan b then nan else 0.5%float.

(** [polymap(domain, range, interpolate)] of continuous.js, the piecewise map
    a continuous scale applies to a number when it has more than two control
    points; the range is made of colours interpolated in RGB. *)
Definition polymap (domain : list float) (range : list rgb) (x : float) : string :=
  let j := Z.min (Z.of_nat (List.length domain)) (Z.of_nat (List.length range)) - 1 in
  let descending :=
    match index domain j, index domain 0 with
    | Some dj, Some d0 => (dj <? d0)%float
    | _, _ => false
    end in
  let domain := if descending then rev domain else domain in
  let range := if descending then rev range else range in
  let i := bisectRight domain x 1 j - 1 in
  match index domain i, index domain (i + 1), index range i, index range (i + 1) with
  | Some d0, Some d1, Some r0, Some r1 =>
      interpolateRgb r0 r1 (normalize d0 d1 x)
  | _, _, _, _ => ""
  end.

(** [d3.scaleLinear().domain(domain).range(range).interpolate(d3.interpolateRgb)]
    over more than two control points, neither clamped nor given an
    [unknown] value: the function [scale] of continuous.js,
    [isNaN(x = +x) ? unknown : polymap(...)(x)].  [None] is [undefined]. *)
Definition scaleLinear (domain : list float) (range : list rgb) (x : float)
  : option string :=
  if is_nan x then None else Some (polymap domain range x).

(** [d3.scaleSequential().domain([x0, x1]).interpolator(f)]: the function
    [scale] of sequential.js,
    [isNaN(x = +x) ? unknown : interpolator(k10 === 0 ? 0.5 : (x - t0) * k10)]
    with [k10 = t0 === t1 ? 0 : 1 / (t1 - t0)].  [None] is [undefined]. *)
Definition scaleSequential {A : Type} (domain : jsval * jsval)
    (interpolator : float -> A) (x : float) : option A :=
  let t0 := ToNumber (fst domain) in
  let t1 := ToNumber (snd domain) in
  let k10 := if (t0 =? t1)%float then 0%float else (1 / (t1 - t0))%float in
  if is_nan x then None
  else Some (interpolator (if (k10 =? 0)%float then 0.5 else (x - t0) * k10)%float).

End D3.

(** ** The data the host passes in (@grafana/data) *)

Module Grafana.

(** A field: a named column; its vector's [get] and [toArray] read [values]. *)
Record Field : Type := { name : string; values : list JS.jsval }.

(** A data frame: its columns and its row count. *)
Record DataFrame : Type := { fields : list Field; length : nat }.

Record PanelData : Type := { series : list DataFrame }.

End Grafana.

Import JS.
Import Grafana (Field, DataFrame, PanelData, name, values, fields, series).

(** types.ts *)
Inductive ChangeDirection : Type := bottomToTop | topToBottom.

Record HeatmapOptions : Type := {
  opt_changeDirection : ChangeDirection;
  opt_toggleColor : bool
}.

(** ** The panel (src/HeatmapPanel.tsx)

    The geometry of the picture (margins, the band scales [x] and [y], the
    axes) takes no part in the values, colours and labels of the cells and is
    left out; so are the panel's [width] and [height]. *)

Section Panel.

(** Two d3 functions are kept abstract: the SI-prefix formatter
    [d3.format('.3~s')] and the colour ramp [d3.interpolateBlues]. *)
Variable format_3s : float -> string.
Variable interpolateBlues : float -> string.

(** *** Chart constants *)

Definition CHART_REQUIRED_FIELDS : list (string * string) := [("pivot", "pivot")].
Definition CHART_REQUIRED_FIELDS_pivot : string := "pivot".

(** COLOR_CELL_BY *)
Definition COLOR_CELL_BY_change : Z := 0.
Definition COLOR_CELL_BY_heatmap : Z := 1.
Definition COLOR_OPTIONS_SIZE : Z := 2.

(** *** Chart configuration *)

Record Config : Type := {
  background : string;
  removeEmptyCols : bool;
  changeDirection : ChangeDirection;
  colorBy : Z;
  toggleColor : bool;
  referenceChange : Z
}.

(** The [config] object as the component builds it, [referenceChange]
    included: the next pivot index for [bottomToTop], the previous one
    otherwise. *)
Definition mkConfig (options : HeatmapOptions) : Config :=
  {| background := "white";
     removeEmptyCols := true;
     changeDirection := opt_changeDirection options;
     colorBy := COLOR_CELL_BY_change;
     toggleColor := opt_toggleColor options;
     referenceChange :=
       match opt_changeDirection options with
       | bottomToTop => 1
       | topToBottom => -1
       end |}.

Definition set_colorBy (config : Config) (c : Z) : Config :=
  {| background := background config;
     removeEmptyCols := removeEmptyCols config;
     changeDirection := changeDirection config;
     colorBy := c;
     toggleColor := toggleColor config;
     referenceChange := referenceChange config |}.

(** *** Accessors *)

Definition pivotAccesor (frame : DataFrame) : option Field :=
  find (fun field => name field =? CHART_REQUIRED_FIELDS_pivot)%string (fields frame).

Definition baseCategoryFields (frame : DataFrame) : list Field :=
  filter (fun field => negb (name field =? CHART_REQUIRED_FIELDS_pivot)%string) (fields frame).

Definition categoryFields (config : Config) (frame : DataFrame) : list Field :=
  if negb (removeEmptyCols config) then baseCategoryFields frame
  else filter (fun field => (0 <? D3.sum (values field))%float) (baseCategoryFields frame).

(** *** Chart field values *)

Definition categories (config : Config) (frame : DataFrame) : list string :=
  map name (categoryFields config frame).

Definition pivotIndices (frame : DataFrame) : list Z := D3.range (Grafana.length frame).

Definition categoryExtent (config : Config) (frame : DataFrame) : jsval * jsval :=
  D3.extent
    (flat_map (fun field => let '(lo, hi) := D3.extent (values field) in [lo; hi])
              (categoryFields config frame)).

(** *** Chart elements *)

(** Colour by vertical change percentage; [None] is the [undefined] the
    scale gives for [NaN]. *)
Definition colorByChange : float -> option string :=
  D3.scaleLinear [-1.5; 0; 1.5]%float [D3.red; D3.pale_yellow; D3.green].

(** Colour by complete values, a proper heatmap; the ramp is clamped to its
    first seven tenths.  [None] is the [undefined] the scale gives for [NaN]. *)
Definition clampColorRange : float -> float := D3.interpolateNumber 0 0.7.

Definition colorAsHeatmap (config : Config) (frame : DataFrame) : float -> option string :=
  D3.scaleSequential (categoryExtent config frame)
    (fun t => interpolateBlues (clampColorRange t)).

(** *** Value formatting *)

(** The datum of a cell. *)
Record Cell : Type := { category : string; pivotIndex : Z }.

(** [vector.get(i)]. *)
Definition get (vector : list jsval) (i : Z) : jsval :=
  match index vector i with
  | Some v => v
  | None => JUndefined
  end.

Definition formatValue (config : Config) (frame : DataFrame) (d : Cell) : result float :=
  match find (fun field => name field =? category d)%string (categoryFields config frame) with
  | None => Throw (TypeError "Cannot read property 'values' of undefined")
  | Some field => Ok (parseFloat (D3.format_fixed false 2 (get (values field) (pivotIndex d))))
  end.

Record Values : Type := {
  currentValue : float;
  referenceValue : float;
  change : float
}.

Definition getValues (config : Config) (frame : DataFrame) (d : Cell) : result Values :=
  let referenceIndex := pivotIndex d + referenceChange config in
  let* currentValue := formatValue config frame d in
  let* reference :=
    formatValue config frame {| category := category d; pivotIndex := referenceIndex |} in
  let referenceValue := or_else reference 0 in
  let change := ((currentValue - referenceValue) / referenceValue)%float in
  Ok {| currentValue := currentValue; referenceValue := referenceValue; change := change |}.

(** *** Chart: the helpers of a row *)

Definition clampedChange (change : float) : float :=
  (if 1 <? change then 1 else if change <? -1 then -1 else change)%float.

Definition colorChange (config : Config) (frame : DataFrame) (d : Cell)
  : result (option string) :=
  let* v := getValues config frame d in
  Ok (if (currentValue v =? 0)%float then colorByChange 0
      else if (referenceValue v =? 0)%float then colorByChange 0.5
      else colorByChange (clampedChange (change v))).

Definition colorHeatmap (config : Config) (frame : DataFrame) (d : Cell)
  : result (option string) :=
  let* v := getValues config frame d in
  Ok (colorAsHeatmap config frame (currentValue v)).

(** [getColor]: [None] is [undefined], from a scale or from the [default]
    branch. *)
Definition getColor (config : Config) (frame : DataFrame) (d : Cell) : result (option string) :=
  if colorBy config =? COLOR_CELL_BY_change then colorChange config frame d
  else if colorBy config =? COLOR_CELL_BY_heatmap then colorHeatmap config frame d
  else Ok None.

(** *** Chart: what is drawn *)

(** A [tspan]: its [dy] attribute and its text. *)
Record TSpan : Type := { dy : string; text : string }.

(** The group of one cell: the [rect.matrix-cell] with its fill and title,
    and the two lines of the label; a second line that is not drawn is
    [None], and so is a fill that is not set ([attr] takes the attribute
    away when its value is [undefined]). *)
Record Item : Type := {
  datum : Cell;
  fill : option string;
  title : string;
  line1 : TSpan;
  line2 : option TSpan
}.

Definition set_fill (item : Item) (c : option string) : Item :=
  {| datum := datum item; fill := c; title := title item;
     line1 := line1 item; line2 := line2 item |}.

(** The first [tspan]: the total, moved up a little when a percentage goes
    below it. *)
Definition valueLabel (v : Values) : TSpan :=
  {| dy := if ToBoolean (currentValue v) && ToBoolean (referenceValue v)
           then "-0.4em" else ".35em";
     text := if ToBoolean (currentValue v) then format_3s (currentValue v) else "-" |}.

(** The second [tspan]: the percentage change below the total. *)
Definition changeLabel (v : Values) : option TSpan :=
  if ToBoolean (currentValue v) && ToBoolean (referenceValue v)
  then Some {| dy := "1em"; text := D3.format_fixed true 1 (JNumber (change v)) |}
  else None.

Definition drawItem (config : Config) (frame : DataFrame) (d : Cell) : result Item :=
  let* c := getColor config frame d in
  let* shown := formatValue config frame d in
  let* v := getValues config frame d in
  Ok {| datum := d; fill := c; title := NumberToString shown;
        line1 := valueLabel v; line2 := changeLabel v |}.

(** One row of the matrix: a cell per category. *)
Definition drawRow (config : Config) (frame : DataFrame) (pivotIndex : Z) : result (list Item) :=
  mapM (drawItem config frame)
       (map (fun category => {| category := category; pivotIndex := pivotIndex |})
            (categories config frame)).

(** The state of a drawn chart: the configuration its handlers share and
    the rows of the matrix. *)
Record Chart : Type := { config : Config; rows : list (list Item) }.

(** The click handler of every cell.  A cell's fill ends at the colour the
    transition is given, and is taken away when that is [undefined]. *)
Definition toggleColoring (frame : DataFrame) (chart : Chart) : result Chart :=
  if negb (toggleColor (config chart)) then Ok chart
  else
    let config' :=
      set_colorBy (config chart) ((colorBy (config chart) + 1) mod COLOR_OPTIONS_SIZE) in
    let* rows' :=
      mapM (mapM (fun item =>
                    let* c := getColor config' frame (datum item) in
                    Ok (set_fill item c)))
           (rows chart) in
    Ok {| config := config'; rows := rows' |}.

(** *** The component *)

Definition HeatmapPanel (options : HeatmapOptions) (data : PanelData) : result Chart :=
  let config := mkConfig options in
  match series data with
  | [] => Throw (TypeError "Cannot read property 'length' of undefined")
  | frame :: _ =>
      match pivotAccesor frame with
      | None =>
          Throw (Error ("Required fields not present: "
                          ++ String.concat ", " (map fst CHART_REQUIRED_FIELDS)))
      | Some _ =>
          let* rows := mapM (drawRow config frame) (pivotIndices frame) in
          Ok {| config := config; rows := rows |}
      end
  end.

End Panel.

(** ** Notions the statements below use *)

(** Every column of the frame has one entry per row. *)
Definition well_formed (frame : DataFrame) : Prop :=
  Forall (fun field => List.length (values field) = Grafana.length frame) (fields frame).

(** A row index of the frame. *)
Definition in_rows (frame : DataFrame) (i : Z) : bool :=
  (0 <=? i) && (i <? Z.of_nat (Grafana.length frame)).

(** A table value as the panel reads it: formatted with two decimals and
    parsed back. *)
Definition twoDecimals (v : jsval) : float := parseFloat (D3.format_fixed false 2 v).

(** Rounding to two decimal places, arithmetically: the magnitude goes to the
    nearest hundredth (half a hundredth goes up), the result is the double
    nearest to that decimal, and the sign is kept unless the result is zero. *)
Definition round_hundredths (s : bool) (m : positive) (e : Z) : float :=
  let n := round_half_up (numerator m e * 100) (denominator e) in
  let r := nearest_double n 100 in
  if s && negb (r =? 0)%float then (- r)%float else r.

(** A decimal digit. *)
Definition is_digit (d : Z) : Prop := 0 <= d < 10.

(** What follows a run of digits: the end of the string or another character. *)
Definition ends_digits (rest : string) : Prop :=
  match rest with
  | EmptyString => True
  | String c _ => digit_of c = None
  end.

(** The frame with the zero-sum category columns taken out. *)
Definition without_zero_sum (frame : DataFrame) : DataFrame :=
  {| Grafana.fields :=
       filter (fun field => (name field =? CHART_REQUIRED_FIELDS_pivot)%string
                            || negb (D3.sum (values field) =? 0)%float)
              (fields frame);
     Grafana.length := Grafana.length frame |}.

(** The charts an instance can show: the one drawn from the data, and any
    chart a click turns a reachable chart into. *)
Inductive reachable (format_3s interpolateBlues : float -> string)
    (options : HeatmapOptions) (frame : DataFrame) (others : list DataFrame)
  : Chart -> Prop :=
| reach_draw chart :
    HeatmapPanel format_3s interpolateBlues options
      {| series := frame :: others |} = Ok chart ->
    reachable format_3s interpolateBlues options frame others chart
| reach_click chart chart' :
    reachable format_3s interpolateBlues options frame others chart ->
    toggleColoring interpolateBlues frame chart = Ok chart' ->
    reachable format_3s interpolateBlues options frame others chart'.

(** The table of the spec's scenario: pivot column [A, B, C] and one
    category column [X = [10, 20, 0]]. *)
Definition scenario : DataFrame :=
  {| Grafana.fields :=
       [ {| name := "pivot"; values := [JString "A"; JString "B"; JString "C"] |};
         {| name := "X"; values := [JNumber 10; JNumber 20; JNumber 0] |} ];
     Grafana.length := 3 |}.

Definition scenario_options : HeatmapOptions :=
  {| opt_changeDirection := bottomToTop; opt_toggleColor := true |}.

(** The scenario table without its pivot column. *)
Definition scenario_without_pivot : DataFrame :=
  {| Grafana.fields := [ {| name := "X"; values := [JNumber 10; JNumber 20; JNumber 0] |} ];
     Grafana.length := 3 |}.

(** A table whose only category column sums to a negative total. *)
Definition negative_column : Field :=
  {| name := "X"; values := [JNumber (-1); JNumber (-2)] |}.

Definition negative_table : DataFrame :=
  {| Grafana.fields :=
       [ {| name := "pivot"; values := [JString "A"; JString "B"] |}; negative_column ];
     Grafana.length := 2 |}.

(** A table with a [NaN] entry above a 5. *)
Definition nan_table : DataFrame :=
  {| Grafana.fields :=
       [ {| name := "pivot"; values := [JString "A"; JString "B"] |};
         {| name := "X"; values := [JNumber nan; JNumber 5] |} ];
     Grafana.length := 2 |}.

(** A table with a stored zero between two tens. *)
Definition zero_between_tens : DataFrame :=
  {| Grafana.fields :=
       [ {| name := "pivot"; values := [JString "A"; JString "B"; JString "C"] |};
         {| name := "X"; values := [JNumber 10; JNumber 0; JNumber 10] |} ];
     Grafana.length := 3 |}.

(** Stand-ins for the two abstract d3 functions, used in the examples. *)
Definition plain_format (x : float) : string := NumberToString x.
Definition plain_ramp (t : float) : string := "blues(" ++ NumberToString t ++ ")".

(** A chart that shows the frame under one of the two colour modes: its
    configuration is the initial one up to the mode, and its rows are what
    drawing under that configuration gives. *)
Definition shows (format_3s interpolateBlues : float -> string)
    (options : HeatmapOptions) (frame : DataFrame) (chart : Chart) : Prop :=
  (colorBy (config chart) = COLOR_CELL_BY_change
   \/ colorBy (config chart) = COLOR_CELL_BY_heatmap)
  /\ config chart = set_colorBy (mkConfig options) (colorBy (config chart))
  /\ mapM (drawRow format_3s interpolateBlues (config chart) frame) (pivotIndices frame)
     = Ok (rows chart).

(** ** The earlier variant of the component (bundled in src/types.ts)

    It has no colour toggle and no heatmap mode: the fill is the by-change
    colour, computed in the [fill] attribute itself, and the datum of a cell
    is its category alone. *)

Section PanelV1.

Variable format_3s : float -> string.

Record ConfigV1 : Type := {
  v1_background : string;
  v1_removeEmptyCols : bool;
  v1_changeDirection : ChangeDirection;
  v1_referenceChange : Z
}.

Definition mkConfigV1 (options : HeatmapOptions) : ConfigV1 :=
  {| v1_background := "white";
     v1_removeEmptyCols := true;
     v1_changeDirection := opt_changeDirection options;
     v1_referenceChange :=
       match opt_changeDirection options with
       | bottomToTop => 1
       | topToBottom => -1
       end |}.

Definition categoryFieldsV1 (config : ConfigV1) (frame : DataFrame) : list Field :=
  if negb (v1_removeEmptyCols config) then baseCategoryFields frame
  else filter (fun field => (0 <? D3.sum (values field))%float) (baseCategoryFields frame).

Definition categoriesV1 (config : ConfigV1) (frame : DataFrame) : list string :=
  map name (categoryFieldsV1 config frame).

Definition formatValueV1 (config : ConfigV1) (frame : DataFrame)
    (category : string) (pivotIndex : Z) : result float :=
  match find (fun field => name field =? category)%string (categoryFieldsV1 config frame) with
  | None => Throw (TypeError "Cannot read property 'values' of undefined")
  | Some field => Ok (parseFloat (D3.format_fixed false 2 (get (values field) pivotIndex)))
  end.

(** The [getValues] helper of a row: the row's [pivotIndex] and
    [referenceIndex] are those of its closure. *)
Definition getValuesV1 (config : ConfigV1) (frame : DataFrame)
    (pivotIndex referenceIndex : Z) (category : string) : result Values :=
  let* currentValue := formatValueV1 config frame category pivotIndex in
  let* reference := formatValueV1 config frame category referenceIndex in
  let referenceValue := or_else reference 0 in
  let change := ((currentValue - referenceValue) / referenceValue)%float in
  Ok {| currentValue := currentValue; referenceValue := referenceValue; change := change |}.

Record ItemV1 : Type := {
  v1_datum : string;
  v1_fill : option string;
  v1_title : string;
  v1_line1 : TSpan;
  v1_line2 : option TSpan
}.

Definition drawItemV1 (config : ConfigV1) (frame : DataFrame) (pivotIndex : Z)
    (category : string) : result ItemV1 :=
  let referenceIndex := pivotIndex + v1_referenceChange config in
  let* v := getValuesV1 config frame pivotIndex referenceIndex category in
  let clampedChange :=
    (if 1 <? change v then 1 else if change v <? -1 then -1 else change v)%float in
  let fill :=
    if (currentValue v =? 0)%float then colorByChange 0
    else if (referenceValue v =? 0)%float then colorByChange 0.5
    else colorByChange clampedChange in
  let* shown := formatValueV1 config frame category pivotIndex in
  let* v1 := getValuesV1 config frame pivotIndex referenceIndex category in
  let* v2 := getValuesV1 config frame pivotIndex referenceIndex category in
  Ok {| v1_datum := category;
        v1_fill := fill;
        v1_title := NumberToString shown;
        v1_line1 :=
          {| dy := if ToBoolean (currentValue v1) && ToBoolean (referenceValue v1)
                   then "-0.4em" else ".35em";
             text := if ToBoolean (currentValue v1) then format_3s (currentValue v1)
                     else "-" |};
        v1_line2 :=
          if ToBoolean (currentValue v2) && ToBoolean (referenceValue v2)
          then Some {| dy := "1em"; text := D3.format_fixed true 1 (JNumber (change v2)) |}
          else None |}.

Definition HeatmapPanelV1 (options : HeatmapOptions) (data : PanelData)
  : result (list (list ItemV1)) :=
  let config := mkConfigV1 options in
  match series data with
  | [] => Throw (TypeError "Cannot read property 'length' of undefined")
  | frame :: _ =>
      match pivotAccesor frame with
      | None =>
          Throw (Error ("Required fields not present: "
                          ++ String.concat ", " (map fst CHART_REQUIRED_FIELDS)))
      | Some _ =>
          mapM (fun pivotIndex =>
                  mapM (drawItemV1 config frame pivotIndex) (categoriesV1 config frame))
               (pivotIndices frame)
      end
  end.

End PanelV1.

(** How a cell of the earlier variant corresponds to a cell of the current
    one. *)
Definition same_cell (old : ItemV1) (item : Item) : Prop :=
  v1_datum old = category (datum item)
  /\ fill item = v1_fill old
  /\ v1_title old = title item
  /\ v1_line1 old = line1 item
  /\ v1_line2 old = line2 item.

(** A table with two category columns of the same name. *)
Definition repeated_names : DataFrame :=
  {| Grafana.fields :=
       [ {| name := "pivot"; values := [JString "A"; JString "B"] |};
         {| name := "X"; values := [JNumber 1; JNumber 2] |};
         {| name := "X"; values := [JNumber 30; JNumber 40] |} ];
     Grafana.length := 2 |}.

(** What a click leaves alone in a cell. *)
Definition same_but_fill (item item' : Item) : Prop :=
  datum item' = datum item /\ title item' = title item
  /\ line1 item' = line1 item /\ line2 item' = line2 item.

(** A table with an entry below half a hundredth. *)
Definition tiny_table : DataFrame :=
  {| Grafana.fields :=
       [ {| name := "pivot"; values := [JString "A"; JString "B"] |};
         {| name := "X"; values := [JNumber 0.004; JNumber 10] |} ];
     Grafana.length := 2 |}.

(** Splits the conjunctions of a goal, and nothing else. *)
Ltac split_ands := repeat match goal with |- _ /\ _ => split end.

(** ** The library models at work *)

Example toFixed_examples :
  toFixed 10 2 = "10.00" /\ toFixed 3.14159 2 = "3.14" /\ toFixed 1.005 2 = "1.00"
  /\ toFixed 0.005 2 = "0.01" /\ toFixed 2.5 0 = "3" /\ toFixed (-0.001)%float 2 = "-0.00"
  /\ toFixed 1e21 2 = "1e+21" /\ toFixed nan 2 = "NaN".
Proof. vm_compute. split_ands; reflexivity. Qed.

Example NumberToString_examples :
  NumberToString 0.1 = "0.1" /\ NumberToString (0.1 + 0.2)%float = "0.30000000000000004"
  /\ NumberToString 255 = "255" /\ NumberToString 1e21 = "1e+21"
  /\ NumberToString 0.000001 = "0.000001" /\ NumberToString 1e-7 = "1e-7"
  /\ NumberToString (-2.5)%float = "-2.5" /\ NumberToString (-0)%float = "0".
Proof. vm_compute. split_ands; reflexivity. Qed.

Example parseFloat_examples :
  parseFloat "10.00" = 10%float /\ parseFloat "3.14" = 3.14%float
  /\ parseFloat "-0.50" = (-0.5)%float /\ parseFloat "1e+21" = 1e21%float
  /\ parseFloat "  12px" = 12%float /\ parseFloat ".5" = 0.5%float
  /\ parseFloat "NaN" = nan /\ parseFloat "-Infinity" = neg_infinity
  /\ parseFloat "" = nan.
Proof. vm_compute. split_ands; reflexivity. Qed.

Example StringToNumber_examples :
  StringToNumber "" = 0%float /\ StringToNumber " 12 " = 12%float
  /\ StringToNumber "12px" = nan /\ StringToNumber "0x1F" = 31%float
  /\ StringToNumber "0.00" = 0%float /\ StringToNumber "A" = nan.
Proof. vm_compute. split_ands; reflexivity. Qed.

Example Math_round_examples :
  Math_round 2.5 = 3%float /\ Math_round (-2.5) = (-2)%float
  /\ Math_round 0.49999999999999994 = 0%float /\ Math_round 254.6 = 255%float.
Proof. vm_compute. split_ands; reflexivity. Qed.

Example format_examples :
  D3.format_fixed false 2 (JNumber 10) = "10.00"
  /\ D3.format_fixed false 2 (JNumber (-3.14159)) = "-3.14"
  /\ D3.format_fixed false 2 (JNumber (-0.001)) = "0.00"
  /\ D3.format_fixed false 2 JUndefined = "NaN"
  /\ D3.format_fixed false 2 JNull = "0.00"
  /\ D3.format_fixed true 1 (JNumber (-0.5)) = "-50.0%"
  /\ D3.format_fixed true 1 (JNumber 0.12345) = "12.3%".
Proof. vm_compute. split_ands; reflexivity. Qed.

Example d3_array_examples :
  D3.sum [JNumber 10; JNumber 20; JNumber 0; JNull; JNumber nan] = 30%float
  /\ D3.extent [JNumber 10; JNumber 20; JNumber 0] = (JNumber 0, JNumber 20)
  /\ D3.extent [JNumber nan; JNull] = (JUndefined, JUndefined)
  /\ D3.range 3 = [0; 1; 2].
Proof. vm_compute. split_ands; reflexivity. Qed.

Example colorByChange_examples :
  colorByChange 0.5 = Some "rgb(167, 208, 129)"
  /\ colorByChange (-0.5) = Some "rgb(252, 165, 129)"
  /\ colorByChange 1 = Some "rgb(83, 168, 64)"
  /\ colorByChange (-1) = Some "rgb(253, 83, 64)"
  /\ colorByChange infinity = Some "rgb(0, 0, 0)"
  /\ colorByChange nan = None.
Proof. vm_compute. split_ands; reflexivity. Qed.

(** A sequential scale in the middle of its domain, on a domain of one
    point, and at [NaN]. *)
Example scaleSequential_examples :
  D3.scaleSequential (JNumber 0, JNumber 20) plain_ramp 10 = Some "blues(0.5)"
  /\ D3.scaleSequential (JNumber 5, JNumber 5) plain_ramp 5 = Some "blues(0.5)"
  /\ D3.scaleSequential (JNumber 5, JNumber 5) plain_ramp 7 = Some "blues(0.5)"
  /\ D3.scaleSequential (JNumber 0, JNumber 20) plain_ramp nan = None.
Proof. vm_compute. split_ands; reflexivity. Qed.

(** The scenario table, drawn: one row per pivot, one cell per kept column. *)
Example scenario_drawn :
  HeatmapPanel plain_format plain_ramp scenario_options {| series := [scenario] |}
  = Ok {| config := mkConfig scenario_options;
          rows :=
            [ [ {| datum := {| category := "X"; pivotIndex := 0 |};
                   fill := Some "rgb(252, 165, 129)";
                   title := "10";
                   line1 := {| dy := "-0.4em"; text := "10" |};
                   line2 := Some {| dy := "1em"; text := "-50.0%" |} |} ];
              [ {| datum := {| category := "X"; pivotIndex := 1 |};
                   fill := Some "rgb(167, 208, 129)";
                   title := "20";
                   line1 := {| dy := ".35em"; text := "20" |};
                   line2 := None |} ];
              [ {| datum := {| category := "X"; pivotIndex := 2 |};
                   fill := Some "rgb(250, 248, 193)";
                   title := "0";
                   line1 := {| dy := ".35em"; text := "-" |};
                   line2 := None |} ] ] |}.
Proof. vm_compute. reflexivity. Qed.

(** A table with a [NaN] entry, drawn: the scale gives no colour for the
    [NaN] change of the first cell, which is left without a fill. *)
Example nan_table_drawn :
  HeatmapPanel plain_format plain_ramp scenario_options {| series := [nan_table] |}
  = Ok {| config := mkConfig scenario_options;
          rows :=
            [ [ {| datum := {| category := "X"; pivotIndex := 0 |};
                   fill := None;
                   title := "NaN";
                   line1 := {| dy := ".35em"; text := "-" |};
                   line2 := None |} ];
              [ {| datum := {| category := "X"; pivotIndex := 1 |};
                   fill := Some "rgb(167, 208, 129)";
                   title := "5";
                   line1 := {| dy := ".35em"; text := "5" |};
                   line2 := None |} ] ] |}.
Proof. vm_compute. reflexivity. Qed.

(** The fills after one click, under the heatmap mode.  The domain of the
    scenario is [[0, 20]]; that of [nan_table] is the single point 5, which
    the scale sends to the middle of the ramp, and its [NaN] cell stays
    without a fill. *)
Example clicked_fills :
  (let* chart := HeatmapPanel plain_format plain_ramp scenario_options
                   {| series := [scenario] |} in
   let* chart' := toggleColoring plain_ramp scenario chart in
   Ok (colorBy (config chart'), map (map fill) (rows chart')))
  = Ok (COLOR_CELL_BY_heatmap,
        [[Some "blues(0.35)"]; [Some "blues(0.7)"]; [Some "blues(0)"]])
  /\ (let* chart := HeatmapPanel plain_format plain_ramp scenario_options
                      {| series := [nan_table] |} in
      let* chart' := toggleColoring plain_ramp nan_table chart in
      Ok (colorBy (config chart'), map (map fill) (rows chart')))
     = Ok (COLOR_CELL_BY_heatmap, [[None]; [Some "blues(0.35)"]]).
Proof. vm_compute. split_ands; reflexivity. Qed.

(** The earlier variant on [nan_table]: the same cell without a fill. *)
Example nan_table_drawn_V1 :
  HeatmapPanelV1 plain_format scenario_options {| series := [nan_table] |}
  = Ok [ [ {| v1_datum := "X";
              v1_fill := None;
              v1_title := "NaN";
              v1_line1 := {| dy := ".35em"; text := "-" |};
              v1_line2 := None |} ];
         [ {| v1_datum := "X";
              v1_fill := Some "rgb(167, 208, 129)";
              v1_title := "5";
              v1_line1 := {| dy := ".35em"; text := "5" |};
              v1_line2 := None |} ] ].
Proof. vm_compute. reflexivity. Qed.

(** ** Facts about doubles *)

Section FloatFacts.

Lemma SFcompare_antisym (a b : spec_float) (c : comparison) :
  SFcompare a b = Some c -> SFcompare b a = Some (CompOpp c).
Proof.
  destruct a as [sa|sa| |sa ma ea], b as [sb|sb| |sb mb eb];
    try destruct sa; try destruct sb; simpl; intros H;
    try discriminate; try (injection H as <-; reflexivity).
  all: injection H as <-; f_equal.
  all: rewrite (Z.compare_antisym ea eb); destruct (ea ?= eb); simpl; try reflexivity.
  all: pose proof (Pos.compare_cont_antisym ma mb Eq) as A; simpl in A; rewrite <- A;
       destruct (Pos.compare_cont Eq ma mb); reflexivity.
Qed.

Lemma SFcompare_none (a b : spec_float) :
  SFcompare a b = None -> a = S754_nan \/ b = S754_nan.
Proof.
  destruct a as [sa|sa| |sa ma ea], b as [sb|sb| |sb mb eb];
    try destruct sa; try destruct sb; simpl; intros H; auto; discriminate.
Qed.

Lemma SFcompare_refl (a : spec_float) : a <> S754_nan -> SFcompare a a = Some Eq.
Proof.
  destruct a as [s|s| |s m e]; try destruct s; simpl; intros H; try reflexivity;
    try congruence; rewrite Z.compare_refl;
    change (Pos.compare_cont Eq m m) with (Pos.compare m m);
    rewrite Pos.compare_refl; reflexivity.
Qed.

Lemma is_nan_Prim2SF (x : float) : is_nan x = true <-> Prim2SF x = S754_nan.
Proof.
  unfold is_nan. rewrite eqb_spec. unfold SFeqb. split.
  - destruct (Prim2SF x) eqn:E; auto; rewrite SFcompare_refl; simpl; congruence.
  - intros ->. reflexivity.
Qed.

Lemma ltb_antisym (x y : float) : (x <? y)%float = true -> (y <? x)%float = false.
Proof.
  rewrite !ltb_spec. unfold SFltb.
  destruct (SFcompare (Prim2SF x) (Prim2SF y)) as [[]|] eqn:E; try discriminate.
  rewrite (SFcompare_antisym _ _ _ E). reflexivity.
Qed.

Lemma not_ltb_leb (x y : float) :
  is_nan x = false -> is_nan y = false ->
  (y <? x)%float = false -> (x <=? y)%float = true.
Proof.
  intros Hx Hy. rewrite ltb_spec, leb_spec. unfold SFltb, SFleb.
  destruct (SFcompare (Prim2SF y) (Prim2SF x)) as [c|] eqn:E.
  - rewrite (SFcompare_antisym _ _ _ E). destruct c; simpl; congruence.
  - apply SFcompare_none in E. destruct E as [E|E]; apply is_nan_Prim2SF in E; congruence.
Qed.

Lemma leb_not_ltb (x y : float) : (x <=? y)%float = true -> (y <? x)%float = false.
Proof.
  rewrite ltb_spec, leb_spec. unfold SFltb, SFleb.
  destruct (SFcompare (Prim2SF x) (Prim2SF y)) as [c|] eqn:E; try discriminate.
  rewrite (SFcompare_antisym _ _ _ E). destruct c; simpl; congruence.
Qed.

(** A number below [-1] is not above [1]. *)
Lemma ltb_not_nan (x y : float) : (x <? y)%float = true -> is_nan x = false.
Proof.
  intros H. destruct (is_nan x) eqn:E; [|reflexivity].
  apply is_nan_Prim2SF in E. rewrite ltb_spec in H. unfold SFltb in H.
  rewrite E in H. cbn in H. discriminate H.
Qed.

Lemma ltb_not_nan_r (x y : float) : (x <? y)%float = true -> is_nan y = false.
Proof.
  intros H. destruct (is_nan y) eqn:E; [|reflexivity].
  apply is_nan_Prim2SF in E. rewrite ltb_spec in H. unfold SFltb in H.
  rewrite E in H. destruct (Prim2SF x) as [ | | |? ? ?]; cbn in H; discriminate H.
Qed.

Lemma ltb_antisym_1 (c : float) : (c <? -1)%float = true -> (1 <? c)%float = false.
Proof.
  rewrite !ltb_spec. unfold SFltb.
  change (Prim2SF (-1)) with (S754_finite true 4503599627370496 (-52)).
  change (Prim2SF 1) with (S754_finite false 4503599627370496 (-52)).
  destruct (Prim2SF c) as [s|s| |s m e]; try destruct s;
    cbv beta iota delta [SFcompare]; try discriminate; reflexivity.
Qed.

(** A positive number is not zero. *)
Lemma ltb_zero_not_eqb (x : float) : (0 <? x)%float = true -> (x =? 0)%float = false.
Proof.
  rewrite ltb_spec, eqb_spec. unfold SFltb, SFeqb.
  destruct (SFcompare (Prim2SF 0) (Prim2SF x)) as [[]|] eqn:E; try discriminate.
  rewrite (SFcompare_antisym _ _ _ E). reflexivity.
Qed.

(** [x === 0] holds of the two zeros only. *)
Lemma eqb_zero_inv (x : float) :
  (x =? 0)%float = true -> x = 0%float \/ x = (-0)%float.
Proof.
  rewrite eqb_spec. unfold SFeqb. intros H.
  assert (exists s, Prim2SF x = S754_zero s) as [s Hs].
  { change (Prim2SF 0) with (S754_zero false) in H.
    destruct (Prim2SF x) as [s|s| |s m e]; try destruct s; simpl in H;
      try discriminate; eauto. }
  rewrite <- (SF2Prim_Prim2SF x), Hs. destruct s; auto.
Qed.

(** A zero is not positive. *)
Lemma eqb_zero_not_ltb (x : float) : (x =? 0)%float = true -> (0 <? x)%float = false.
Proof. intros H. destruct (eqb_zero_inv x H) as [-> | ->]; reflexivity. Qed.

(** A falsy number is a zero or [NaN]. *)
Lemma ToBoolean_false (x : float) :
  ToBoolean x = false <-> (x =? 0)%float = true \/ is_nan x = true.
Proof.
  unfold ToBoolean. rewrite negb_false_iff, orb_true_iff. reflexivity.
Qed.

(** What [a || 0] yields is never [NaN], and is zero exactly when falsy. *)
Lemma or_else_zero_cases (a : float) :
  (ToBoolean a = true /\ or_else a 0 = a) \/ (ToBoolean a = false /\ or_else a 0 = 0%float).
Proof. unfold or_else. destruct (ToBoolean a); auto. Qed.

Lemma abs_abs (x : float) : abs (abs x) = abs x.
Proof.
  apply Prim2SF_inj. rewrite !abs_spec. destruct (Prim2SF x); reflexivity.
Qed.

(** The sign test of d3-format on a finite, non-zero double. *)
Lemma negative_test (x : float) (s : bool) (m : positive) (e : Z) :
  Prim2SF x = S754_finite s m e ->
  ((x <? 0) || (1 / x <? 0))%float = s.
Proof.
  intros Hx. rewrite !ltb_spec, div_spec, Hx.
  change (Prim2SF 0) with (S754_zero false).
  destruct s; [reflexivity|].
  change (Prim2SF 1) with (S754_finite false 4503599627370496 (-52)).
  unfold SF64div, SFdiv. simpl SFltb at 1. simpl orb.
  destruct (SFdiv_core_binary _ _ _ _ _ _) as [[mz ez] lz].
  unfold binary_round_aux.
  destruct (shr_fexp prec emax mz ez lz) as [mrs' e'].
  destruct (shr_fexp _ _ _ _ _) as [mrs'' e''].
  destruct (shr_m mrs''); try reflexivity.
  destruct (_ <=? _); reflexivity.
Qed.

End FloatFacts.

(** ** Facts about printing and reading decimal digits *)

Section DigitFacts.

Lemma digits_fuel_value (fuel : nat) : forall (n : Z) (acc : list Z),
  0 <= n < 2 ^ (Z.of_nat fuel + 1) ->
  fold_left (fun a d => 10 * a + d) (digits_fuel fuel n acc) 0
  = fold_left (fun a d => 10 * a + d) acc n.
Proof.
  induction fuel as [|fuel IH]; intros n acc Hn.
  - reflexivity.
  - cbn [digits_fuel]. destruct (n <? 10) eqn:E; [reflexivity|].
    apply Z.ltb_ge in E. rewrite IH.
    + cbn [fold_left]. f_equal. pose proof (Z_div_mod_eq_full n 10). lia.
    + rewrite Nat2Z.inj_succ in Hn.
      replace (Z.succ (Z.of_nat fuel) + 1) with (Z.of_nat fuel + 1 + 1) in Hn by lia.
      rewrite Z.pow_add_r in Hn by lia. change (2 ^ 1) with 2 in Hn.
      split; [apply Z.div_pos; lia|].
      apply Z.div_lt_upper_bound; lia.
Qed.

Lemma digits_fuel_digit (fuel : nat) : forall (n : Z) (acc : list Z),
  0 <= n < 2 ^ (Z.of_nat fuel + 1) -> Forall is_digit acc ->
  Forall is_digit (digits_fuel fuel n acc).
Proof.
  induction fuel as [|fuel IH]; intros n acc Hn Hacc.
  - constructor; [|assumption]. change (2 ^ (Z.of_nat 0 + 1)) with 2 in Hn.
    unfold is_digit. lia.
  - cbn [digits_fuel]. destruct (n <? 10) eqn:E.
    + apply Z.ltb_lt in E. constructor; [unfold is_digit; lia | assumption].
    + apply Z.ltb_ge in E. apply IH.
      * rewrite Nat2Z.inj_succ in Hn.
        replace (Z.succ (Z.of_nat fuel) + 1) with (Z.of_nat fuel + 1 + 1) in Hn by lia.
        rewrite Z.pow_add_r in Hn by lia. change (2 ^ 1) with 2 in Hn.
        split; [apply Z.div_pos; lia|].
        apply Z.div_lt_upper_bound; lia.
      * constructor; [|assumption]. unfold is_digit.
        pose proof (Z.mod_pos_bound n 10). lia.
Qed.

Lemma digits_fuel_enough (n : Z) :
  0 <= n -> 0 <= n < 2 ^ (Z.of_nat (Z.to_nat (Z.log2 n)) + 1).
Proof.
  intros Hn. split; [assumption|].
  rewrite Z2Nat.id by apply Z.log2_nonneg.
  destruct (Z.eq_dec n 0) as [->|Hz]; [reflexivity|].
  replace (Z.log2 n + 1) with (Z.succ (Z.log2 n)) by lia.
  apply Z.log2_spec. lia.
Qed.

(** The digits of a number denote it. *)
Lemma digits_value_digits (n : Z) : 0 <= n -> digits_value (digits n) = n.
Proof.
  intros Hn. unfold digits_value, digits.
  rewrite digits_fuel_value by (apply digits_fuel_enough; assumption).
  reflexivity.
Qed.

Lemma digits_are_digits (n : Z) : 0 <= n -> Forall is_digit (digits n).
Proof.
  intros Hn. apply digits_fuel_digit; [apply digits_fuel_enough; assumption | constructor].
Qed.

Lemma digits_value_zeros (k : nat) (ds : list Z) :
  digits_value (zeros k ++ ds) = digits_value ds.
Proof.
  unfold digits_value, zeros. rewrite fold_left_app.
  induction k as [|k IH]; [reflexivity|]. cbn [repeat fold_left]. exact IH.
Qed.

Lemma zeros_are_digits (k : nat) : Forall is_digit (zeros k).
Proof.
  unfold zeros. induction k; constructor; [unfold is_digit; lia | assumption].
Qed.

End DigitFacts.

Lemma digit_cases (d : Z) :
  is_digit d ->
  d = 0 \/ d = 1 \/ d = 2 \/ d = 3 \/ d = 4 \/ d = 5 \/ d = 6 \/ d = 7 \/ d = 8 \/ d = 9.
Proof. unfold is_digit. lia. Qed.

Ltac each_digit H :=
  apply digit_cases in H;
  repeat (destruct H as [H|H]; [subst|]); [..|subst].

(** ** Facts about fixed-point text: what [toFixed] prints reads back *)

Section FixedFacts.

Lemma digit_of_digit_char (d : Z) : is_digit d -> digit_of (digit_char d) = Some d.
Proof. intros H. each_digit H; reflexivity. Qed.

Lemma span_digits_end (rest : string) : ends_digits rest -> span_digits rest = ([], rest).
Proof. destruct rest as [|c r]; [reflexivity|]. cbn. intros ->. reflexivity. Qed.

(** Reading back a printed run of digits. *)
Lemma span_digits_string_of_digits (ds : list Z) (rest : string) :
  Forall is_digit ds -> ends_digits rest ->
  span_digits (string_of_digits ds ++ rest) = (ds, rest).
Proof.
  intros Hds Hrest. induction Hds as [|d ds Hd _ IH].
  - apply span_digits_end. assumption.
  - cbn. rewrite (digit_of_digit_char d Hd), IH. reflexivity.
Qed.

Lemma append_empty_r (s : string) : s ++ "" = s.
Proof. induction s as [|c s IH]; [reflexivity|]. cbn. rewrite IH. reflexivity. Qed.

(** The integer and fraction digits of a fixed-point text. *)
Lemma fixed_digits_split (n : Z) (f : nat) :
  0 <= n ->
  exists ip fp,
    fixed_digits n (S f) = string_of_digits ip ++ "." ++ string_of_digits fp
    /\ ip <> [] /\ List.length fp = S f
    /\ Forall is_digit ip /\ Forall is_digit fp
    /\ digits_value (ip ++ fp) = n.
Proof.
  intros Hn. unfold fixed_digits.
  set (ds := (zeros (S (S f) - List.length (digits n)) ++ digits n)%list).
  set (k := List.length ds).
  assert (Hk : (S (S f) <= k)%nat).
  { subst k ds. rewrite length_app. unfold zeros. rewrite repeat_length. lia. }
  assert (Hds : Forall is_digit ds).
  { subst ds. apply Forall_app. split; [apply zeros_are_digits | apply digits_are_digits; lia]. }
  exists (firstn (k - S f) ds), (skipn (k - S f) ds).
  rewrite <- (firstn_skipn (k - S f) ds) in Hds. apply Forall_app in Hds.
  repeat split; try tauto.
  - intros E. apply (f_equal (@List.length Z)) in E.
    rewrite length_firstn in E. change (List.length ds) with k in E.
    change (List.length (@nil Z)) with 0%nat in E. lia.
  - rewrite length_skipn. fold k. lia.
  - rewrite firstn_skipn. subst ds. rewrite digits_value_zeros.
    apply digits_value_digits. assumption.
Qed.

Lemma digit_char_plain (d : Z) :
  is_digit d ->
  is_space (digit_char d) = false
  /\ radix_of (digit_char d) = 0
  /\ Ascii.eqb "I" (digit_char d) = false
  /\ Ascii.eqb (digit_char d) "+" = false
  /\ Ascii.eqb (digit_char d) "-" = false.
Proof. intros H. each_digit H; repeat split; reflexivity. Qed.

(** An unsigned fixed-point text denotes its digits, scaled by the number of
    fraction digits. *)
Lemma unsigned_literal_fixed (ip fp : list Z) :
  ip <> [] -> Forall is_digit ip -> Forall is_digit fp ->
  unsigned_literal (string_of_digits ip ++ "." ++ string_of_digits fp)
  = Some (LitDecimal (digits_value (ip ++ fp)) (- Z.of_nat (List.length fp)), "").
Proof.
  intros Hne Hip Hfp. unfold unsigned_literal.
  assert (Hinf : strip_prefix "Infinity"
                   (string_of_digits ip ++ "." ++ string_of_digits fp) = None).
  { destruct ip as [|d ip']; [congruence|]. inversion Hip as [|? ? Hd _]; subst.
    cbn [string_of_digits append strip_prefix].
    destruct (digit_char_plain d Hd) as (_ & _ & -> & _). reflexivity. }
  rewrite Hinf.
  rewrite (span_digits_string_of_digits ip ("." ++ string_of_digits fp) Hip)
    by reflexivity.
  cbn [append].
  pose proof (span_digits_string_of_digits fp "" Hfp I) as Hspan.
  rewrite append_empty_r in Hspan.
  cbv beta iota. rewrite Hspan.
  destruct ip as [|d ip']; [congruence|].
  cbv beta iota. cbn [exponent_opt]. reflexivity.
Qed.

Lemma decimal_literal_fixed (neg : bool) (ip fp : list Z) :
  ip <> [] -> Forall is_digit ip -> Forall is_digit fp ->
  decimal_literal ((if neg then "-" else "")
                     ++ string_of_digits ip ++ "." ++ string_of_digits fp)
  = Some (literal_value neg
            (LitDecimal (digits_value (ip ++ fp)) (- Z.of_nat (List.length fp))), "").
Proof.
  intros Hne Hip Hfp.
  pose proof (unsigned_literal_fixed ip fp Hne Hip Hfp) as Hu.
  unfold decimal_literal. cbn [append] in Hu. destruct neg.
  - cbn [append]. rewrite Hu. reflexivity.
  - cbn [append].
    destruct ip as [|d ip']; [congruence|]. inversion Hip as [|? ? Hd _]; subst.
    cbn [string_of_digits append] in *.
    each_digit Hd;
      match goal with
      | |- context [digit_char ?k] =>
          let c := eval vm_compute in (digit_char k) in
          change (digit_char k) with c in *
      end;
      cbv beta iota; rewrite Hu; reflexivity.
Qed.

Lemma trim_start_fixed (neg : bool) (ip : list Z) (rest : string) :
  ip <> [] -> Forall is_digit ip ->
  trim_start ((if neg then "-" else "") ++ string_of_digits ip ++ rest)
  = (if neg then "-" else "") ++ string_of_digits ip ++ rest.
Proof.
  intros Hne Hip. destruct neg; [reflexivity|].
  destruct ip as [|d ip']; [congruence|]. inversion Hip as [|? ? Hd _]; subst.
  cbn [string_of_digits append trim_start].
  destruct (digit_char_plain d Hd) as (-> & _). reflexivity.
Qed.

Lemma trim_end_digits (ds : list Z) (rest : string) :
  Forall is_digit ds ->
  trim_end (string_of_digits ds ++ rest) = string_of_digits ds ++ trim_end rest.
Proof.
  intros Hds. induction Hds as [|d ds Hd _ IH]; [reflexivity|].
  cbn [string_of_digits append trim_end all_space].
  destruct (digit_char_plain d Hd) as (-> & _). cbn [andb]. rewrite IH. reflexivity.
Qed.

Lemma radix_literal_fixed (ip fp : list Z) :
  ip <> [] -> Forall is_digit ip -> Forall is_digit fp ->
  radix_literal (string_of_digits ip ++ "." ++ string_of_digits fp) = None.
Proof.
  intros Hne Hip Hfp.
  destruct ip as [|d ip']; [congruence|]. inversion Hip as [|? ? Hd Hip']; subst.
  cbn [string_of_digits append radix_literal].
  destruct ip' as [|d' ip''].
  - cbn [string_of_digits append]. change (radix_of ".") with 0.
    rewrite andb_false_r. reflexivity.
  - inversion Hip' as [|? ? Hd' _]; subst. cbn [string_of_digits append].
    destruct (digit_char_plain d' Hd') as (_ & -> & _).
    rewrite andb_false_r. reflexivity.
Qed.

(** parseFloat of a fixed-point text. *)
Lemma parseFloat_fixed (neg : bool) (ip fp : list Z) :
  ip <> [] -> Forall is_digit ip -> Forall is_digit fp ->
  parseFloat ((if neg then "-" else "")
                ++ string_of_digits ip ++ "." ++ string_of_digits fp)
  = literal_value neg
      (LitDecimal (digits_value (ip ++ fp)) (- Z.of_nat (List.length fp))).
Proof.
  intros Hne Hip Hfp. unfold parseFloat.
  rewrite trim_start_fixed by assumption.
  rewrite decimal_literal_fixed by assumption. reflexivity.
Qed.

(** ToNumber of an unsigned fixed-point text. *)
Lemma StringToNumber_fixed (ip fp : list Z) :
  ip <> [] -> Forall is_digit ip -> Forall is_digit fp ->
  StringToNumber (string_of_digits ip ++ "." ++ string_of_digits fp)
  = decimal_value (digits_value (ip ++ fp)) (- Z.of_nat (List.length fp)).
Proof.
  intros Hne Hip Hfp. unfold StringToNumber.
  set (t := string_of_digits ip ++ "." ++ string_of_digits fp).
  assert (Ht : trim_end (trim_start t) = t).
  { pose proof (trim_start_fixed false ip ("." ++ string_of_digits fp) Hne Hip) as Hs.
    change (trim_start t = t) in Hs. rewrite Hs. subst t.
    rewrite trim_end_digits by assumption. f_equal.
    pose proof (trim_end_digits fp "" Hfp) as Hf. cbn [trim_end] in Hf.
    rewrite !append_empty_r in Hf.
    cbn [append trim_end all_space]. change (is_space ".") with false.
    cbn [andb]. rewrite Hf. reflexivity. }
  rewrite Ht.
  pose proof (radix_literal_fixed ip fp Hne Hip Hfp) as Hr. fold t in Hr.
  pose proof (decimal_literal_fixed false ip fp Hne Hip Hfp) as Hd.
  change (decimal_literal t = Some
            (literal_value false
               (LitDecimal (digits_value (ip ++ fp)) (- Z.of_nat (List.length fp))), ""))
    in Hd.
  rewrite Hr, Hd.
  destruct ip as [|d ip']; [congruence|].
  subst t. cbn [string_of_digits append]. reflexivity.
Qed.

End FixedFacts.

(** ** What the two-decimal round trip computes *)

Section TwoDecimals.

(** [round_half_up] picks the integer nearest to the fraction: it is within
    one half of it, and the larger of the two candidates at a tie. *)
Lemma round_half_up_nearest (num den : Z) :
  0 < den ->
  let n := round_half_up num den in
  2 * den * n - den <= 2 * num < 2 * den * n + den.
Proof.
  intros Hd n. unfold n, round_half_up.
  pose proof (Z_div_mod_eq_full (2 * num + den) (2 * den)) as E.
  pose proof (Z.mod_pos_bound (2 * num + den) (2 * den)). nia.
Qed.

Lemma round_half_up_nonneg (num den : Z) : 0 <= num -> 0 < den -> 0 <= round_half_up num den.
Proof. intros Hn Hd. unfold round_half_up. apply Z.div_pos; lia. Qed.

Lemma numerator_pos (m : positive) (e : Z) : 0 < numerator m e.
Proof.
  unfold numerator. destruct (0 <=? e) eqn:E; [|lia].
  apply Z.leb_le in E. pose proof (Z.pow_pos_nonneg 2 e). lia.
Qed.

Lemma denominator_pos (e : Z) : 0 < denominator e.
Proof.
  unfold denominator. destruct (0 <=? e) eqn:E; [lia|].
  apply Z.leb_gt in E. apply Z.pow_pos_nonneg; lia.
Qed.

Lemma finite_not_nan (x : float) (s : bool) (m : positive) (e : Z) :
  Prim2SF x = S754_finite s m e -> is_nan x = false.
Proof.
  intros Hx. destruct (is_nan x) eqn:E; [|reflexivity].
  apply is_nan_Prim2SF in E. congruence.
Qed.

(** [toFixed] on a magnitude below [1e21]: the digits of the rounded value. *)
Lemma toFixed_regular (x : float) (s : bool) (m : positive) (e : Z) (f : nat) :
  Prim2SF x = S754_finite s m e ->
  (1e21 <=? abs x)%float = false ->
  toFixed (abs x) f
  = fixed_digits (round_half_up (numerator m e * 10 ^ Z.of_nat f) (denominator e)) f.
Proof.
  intros Hx Hbig. unfold toFixed, Math_abs.
  rewrite abs_spec, Hx. cbn [SFabs]. rewrite abs_abs, Hbig. reflexivity.
Qed.

(** The text [d3.format('.2f')] gives for a finite, non-zero double below
    [1e21] in magnitude reads back as that double rounded to hundredths. *)
Lemma twoDecimals_regular (x : float) (s : bool) (m : positive) (e : Z) :
  Prim2SF x = S754_finite s m e ->
  (1e21 <=? abs x)%float = false ->
  twoDecimals (JNumber x) = round_hundredths s m e.
Proof.
  intros Hx Hbig. unfold twoDecimals, D3.format_fixed, round_hundredths.
  cbn [ToNumber]. unfold Math_abs. cbv beta iota zeta.
  rewrite (finite_not_nan x s m e Hx).
  rewrite (negative_test x s m e Hx).
  rewrite (toFixed_regular x s m e 2 Hx Hbig).
  change (10 ^ Z.of_nat 2) with 100.
  set (n := round_half_up (numerator m e * 100) (denominator e)).
  assert (Hn : 0 <= n).
  { apply round_half_up_nonneg; [|apply denominator_pos].
    pose proof (numerator_pos m e). lia. }
  destruct (fixed_digits_split n 1 Hn) as (ip & fp & -> & Hne & Hlen & Hip & Hfp & Hval).
  rewrite (StringToNumber_fixed ip fp Hne Hip Hfp), Hval, Hlen.
  change (decimal_value n (- Z.of_nat 2)) with (nearest_double n 100).
  set (r := nearest_double n 100).
  replace (if s && (r =? 0)%float then false else s) with (s && negb (r =? 0)%float)
    by (destruct s, (r =? 0)%float; reflexivity).
  rewrite append_empty_r.
  rewrite (parseFloat_fixed _ ip fp Hne Hip Hfp), Hval, Hlen.
  unfold literal_value.
  change (decimal_value n (- Z.of_nat 2)) with r. reflexivity.
Qed.

(** The other table values: missing entries and [NaN] give [NaN], [null]
    and the zeros give [0], the infinities stay. *)
Lemma twoDecimals_special :
  twoDecimals JUndefined = nan /\ twoDecimals JNull = 0%float
  /\ twoDecimals (JNumber nan) = nan
  /\ twoDecimals (JNumber 0) = 0%float /\ twoDecimals (JNumber (-0)) = 0%float
  /\ twoDecimals (JNumber infinity) = infinity
  /\ twoDecimals (JNumber neg_infinity) = neg_infinity.
Proof. repeat split; vm_compute; reflexivity. Qed.

End TwoDecimals.

(** ** Facts about lists, lookups and [mapM] *)

Section ListFacts.

Context {A B : Type}.

Lemma mapM_Ok_inv (f : A -> result B) (l : list A) : forall l',
  mapM f l = Ok l' -> Forall2 (fun a b => f a = Ok b) l l'.
Proof.
  induction l as [|a l IH]; intros l' H; cbn in H.
  - injection H as <-. constructor.
  - destruct (f a) as [b|e] eqn:Ea; cbn in H; [|discriminate].
    destruct (mapM f l) as [bs|e] eqn:El; cbn in H; [|discriminate].
    injection H as <-. constructor; [assumption | apply IH; reflexivity].
Qed.

Lemma mapM_total (f : A -> result B) (l : list A) :
  (forall a, In a l -> exists b, f a = Ok b) -> exists l', mapM f l = Ok l'.
Proof.
  induction l as [|a l IH]; intros H; cbn.
  - eexists; reflexivity.
  - destruct (H a (or_introl eq_refl)) as [b ->].
    destruct IH as [bs ->]; [intros; apply H; right; assumption|].
    eexists; reflexivity.
Qed.

Lemma Forall2_In_r (R : A -> B -> Prop) (l : list A) (l' : list B) (b : B) :
  Forall2 R l l' -> In b l' -> exists a, In a l /\ R a b.
Proof.
  induction 1 as [|a0 b0 l l' H0 _ IH]; intros Hin; [contradiction|].
  destruct Hin as [<-|Hin].
  - exists a0. split; [left; reflexivity | assumption].
  - destruct (IH Hin) as (a & Ha & HR). exists a. split; [right|]; assumption.
Qed.

Lemma index_Some_iff (l : list A) (i : Z) :
  (exists v, index l i = Some v) <-> 0 <= i < Z.of_nat (List.length l).
Proof.
  unfold index. destruct (i <? 0) eqn:E.
  - apply Z.ltb_lt in E. split; [intros [v Hv]; discriminate | lia].
  - apply Z.ltb_ge in E. split.
    + intros [v Hv]. assert (Hn : nth_error l (Z.to_nat i) <> None) by congruence.
      apply nth_error_Some in Hn. lia.
    + intros Hi. destruct (nth_error l (Z.to_nat i)) eqn:En; [eauto|].
      apply nth_error_None in En. lia.
Qed.

Lemma index_None_iff (l : list A) (i : Z) :
  index l i = None <-> ~ (0 <= i < Z.of_nat (List.length l)).
Proof.
  rewrite <- index_Some_iff. destruct (index l i); split; intros H.
  - discriminate.
  - exfalso. apply H. eauto.
  - intros [v Hv]. discriminate.
  - reflexivity.
Qed.

End ListFacts.

Lemma find_by_name (cat : string) (l : list Field) :
  In cat (map name l) ->
  exists field,
    find (fun field => name field =? cat)%string l = Some field
    /\ In field l /\ name field = cat.
Proof.
  induction l as [|f l IH]; intros Hin; [contradiction|]. cbn [find].
  destruct (name f =? cat)%string eqn:E.
  - apply String.eqb_eq in E. exists f. repeat split; [left; reflexivity | assumption].
  - destruct Hin as [Hin|Hin]; [apply String.eqb_neq in E; congruence|].
    destruct (IH Hin) as (field & Hf & Hl & Hn).
    exists field. repeat split; [assumption | right; assumption | assumption].
Qed.

(** ** Facts about the panel *)

Section PanelFacts.

Variable format_3s : float -> string.
Variable interpolateBlues : float -> string.

(** The kept columns are columns of the frame. *)
Lemma categoryFields_incl (config : Config) (frame : DataFrame) (field : Field) :
  In field (categoryFields config frame) -> In field (fields frame).
Proof.
  unfold categoryFields, baseCategoryFields.
  destruct (negb (removeEmptyCols config)); intros H;
    repeat (apply filter_In in H; destruct H as [H _]); assumption.
Qed.

(** Looking a kept category up cannot fail, whatever the row index. *)
Lemma formatValue_Ok (config : Config) (frame : DataFrame) (cat : string) (i : Z) :
  In cat (categories config frame) ->
  exists field,
    find (fun field => name field =? cat)%string (categoryFields config frame) = Some field
    /\ formatValue config frame {| category := cat; pivotIndex := i |}
       = Ok (twoDecimals (get (values field) i)).
Proof.
  intros Hin. destruct (find_by_name cat _ Hin) as (field & Hf & _ & _).
  exists field. split; [assumption|].
  unfold formatValue. cbn [category pivotIndex]. rewrite Hf. reflexivity.
Qed.

Lemma getValues_Ok (config : Config) (frame : DataFrame) (cat : string) (i : Z) :
  In cat (categories config frame) ->
  exists field,
    find (fun field => name field =? cat)%string (categoryFields config frame) = Some field
    /\ getValues config frame {| category := cat; pivotIndex := i |}
       = Ok (let current := twoDecimals (get (values field) i) in
             let reference :=
               or_else (twoDecimals (get (values field) (i + referenceChange config))) 0 in
             {| currentValue := current;
                referenceValue := reference;
                change := ((current - reference) / reference)%float |}).
Proof.
  intros Hin.
  destruct (formatValue_Ok config frame cat i Hin) as (field & Hf & Hc).
  destruct (formatValue_Ok config frame cat (i + referenceChange config) Hin)
    as (field' & Hf' & Hr).
  assert (field' = field) by congruence. subst field'.
  exists field. split; [assumption|].
  unfold getValues. cbn [category pivotIndex]. rewrite Hc. cbn [bind].
  rewrite Hr. reflexivity.
Qed.

(** C1.  For a category of the pruned set and a row index of a well-formed
    frame, [getValues] returns: as current value the table entry of that
    category and row, rounded to two decimals; as reference value the entry
    [referenceOffset] rows away ([+1] for [bottomToTop], [-1] for
    [topToBottom]) rounded likewise, or [0] when that row does not exist or
    the rounded entry is falsy; and as change
    [(current - reference) / reference].  Rounding to two decimals is the
    [toFixed]/[parseFloat] round trip, which on a finite non-zero double below
    [1e21] in magnitude is [round_hundredths]. *)
Theorem getValues_spec (options : HeatmapOptions) (frame : DataFrame)
    (cat : string) (i : Z) :
  let config := mkConfig options in
  let referenceOffset :=
    match opt_changeDirection options with
    | bottomToTop => 1
    | topToBottom => -1
    end in
  well_formed frame ->
  In cat (categories config frame) ->
  in_rows frame i = true ->
  (exists field v,
      find (fun field => name field =? cat)%string (categoryFields config frame) = Some field
      /\ name field = cat
      /\ index (values field) i = Some v
      /\ let current := twoDecimals v in
         let reference :=
           match (if in_rows frame (i + referenceOffset)
                  then index (values field) (i + referenceOffset) else None) with
           | Some w => if ToBoolean (twoDecimals w) then twoDecimals w else 0%float
           | None => 0%float
           end in
         getValues config frame {| category := cat; pivotIndex := i |}
         = Ok {| currentValue := current;
                 referenceValue := reference;
                 change := ((current - reference) / reference)%float |})
  /\ (forall x s m e,
        Prim2SF x = S754_finite s m e -> (1e21 <=? abs x)%float = false ->
        twoDecimals (JNumber x) = round_hundredths s m e).
Proof.
  intros config referenceOffset Hwf Hin Hi.
  split; [|intros x s m e; apply twoDecimals_regular].
  destruct (getValues_Ok config frame cat i Hin) as (field & Hfind & Hget).
  destruct (find_by_name cat _ Hin) as (field' & Hfind' & Hkept & Hname).
  assert (field' = field) by congruence. subst field'.
  assert (Hlen : List.length (values field) = Grafana.length frame).
  { unfold well_formed in Hwf. rewrite Forall_forall in Hwf. apply Hwf.
    apply (categoryFields_incl config). assumption. }
  assert (Hrows : forall j, in_rows frame j = true <-> exists w, index (values field) j = Some w).
  { intros j. rewrite index_Some_iff, Hlen. unfold in_rows.
    rewrite andb_true_iff, Z.leb_le, Z.ltb_lt. reflexivity. }
  destruct (proj1 (Hrows i) Hi) as [v Hv].
  exists field, v. repeat split; try assumption.
  cbv zeta. rewrite Hget. cbv zeta.
  change (referenceChange config) with referenceOffset.
  assert (Hcur : get (values field) i = v) by (unfold get; rewrite Hv; reflexivity).
  assert (Href : or_else (twoDecimals (get (values field) (i + referenceOffset))) 0
                 = match (if in_rows frame (i + referenceOffset)
                          then index (values field) (i + referenceOffset) else None) with
                   | Some w => if ToBoolean (twoDecimals w) then twoDecimals w else 0%float
                   | None => 0%float
                   end).
  { destruct (in_rows frame (i + referenceOffset)) eqn:Ej.
    - destruct (proj1 (Hrows _) Ej) as [w Hw]. unfold get. rewrite Hw. reflexivity.
    - assert (Hnone : index (values field) (i + referenceOffset) = None).
      { destruct (index (values field) (i + referenceOffset)) eqn:E; [|reflexivity].
        assert (in_rows frame (i + referenceOffset) = true) by (apply Hrows; eauto).
        congruence. }
      unfold get. rewrite Hnone. vm_compute. reflexivity. }
  rewrite Hcur, Href. reflexivity.
Qed.

(** C9.  For a category of the pruned set the derivation of a cell's values
    raises no error: both [formatValue] lookups, the one at the reference
    index included, and [getValues] itself return a value.  (No bound on the
    row index is needed: a missing entry reads as [undefined].) *)
Theorem getValues_raises_no_error (config : Config) (frame : DataFrame)
    (cat : string) (i : Z) :
  In cat (categories config frame) ->
  in_rows frame i = true ->
  (exists current, formatValue config frame {| category := cat; pivotIndex := i |} = Ok current)
  /\ (exists reference,
        formatValue config frame
          {| category := cat; pivotIndex := i + referenceChange config |} = Ok reference)
  /\ (exists v, getValues config frame {| category := cat; pivotIndex := i |} = Ok v).
Proof.
  intros Hin _. repeat split.
  - destruct (formatValue_Ok config frame cat i Hin) as (field & _ & H). eauto.
  - destruct (formatValue_Ok config frame cat (i + referenceChange config) Hin)
      as (field & _ & H). eauto.
  - destruct (getValues_Ok config frame cat i Hin) as (field & _ & H). eauto.
Qed.

(** *** Drawing *)

Lemma getColor_Ok (config : Config) (frame : DataFrame) (d : Cell) (v : Values) :
  getValues config frame d = Ok v ->
  exists c, getColor interpolateBlues config frame d = Ok c.
Proof.
  intros Hv. unfold getColor, colorChange, colorHeatmap. rewrite Hv. cbn [bind].
  destruct (colorBy config =? COLOR_CELL_BY_change); [eauto|].
  destruct (colorBy config =? COLOR_CELL_BY_heatmap); eauto.
Qed.

Lemma drawItem_Ok (config : Config) (frame : DataFrame) (cat : string) (i : Z) :
  In cat (categories config frame) ->
  exists item,
    drawItem format_3s interpolateBlues config frame {| category := cat; pivotIndex := i |}
    = Ok item.
Proof.
  intros Hin. unfold drawItem.
  destruct (getValues_Ok config frame cat i Hin) as (field & _ & Hv).
  destruct (getColor_Ok config frame _ _ Hv) as [c ->].
  destruct (formatValue_Ok config frame cat i Hin) as (field' & _ & ->).
  rewrite Hv. cbn [bind]. eauto.
Qed.

Lemma drawItem_inv (config : Config) (frame : DataFrame) (d : Cell) (item : Item) :
  drawItem format_3s interpolateBlues config frame d = Ok item ->
  exists c shown v,
    getColor interpolateBlues config frame d = Ok c
    /\ formatValue config frame d = Ok shown
    /\ getValues config frame d = Ok v
    /\ item = {| datum := d; fill := c; title := NumberToString shown;
                 line1 := valueLabel format_3s v; line2 := changeLabel v |}.
Proof.
  unfold drawItem. intros H.
  destruct (getColor interpolateBlues config frame d) as [c|] eqn:Ec; [|discriminate].
  destruct (formatValue config frame d) as [shown|] eqn:Es; [|discriminate].
  destruct (getValues config frame d) as [v|] eqn:Ev; [|discriminate].
  cbn [bind] in H. injection H as <-. exists c, shown, v. repeat split.
Qed.

Lemma drawRow_Ok (config : Config) (frame : DataFrame) (i : Z) :
  exists row, drawRow format_3s interpolateBlues config frame i = Ok row.
Proof.
  unfold drawRow. apply mapM_total. intros d Hd.
  apply in_map_iff in Hd. destruct Hd as (cat & <- & Hcat).
  apply drawItem_Ok. assumption.
Qed.

(** Every item of a drawn row is the drawing of a cell of a kept category. *)
Lemma drawRow_items (config : Config) (frame : DataFrame) (i : Z)
    (row : list Item) (item : Item) :
  drawRow format_3s interpolateBlues config frame i = Ok row ->
  In item row ->
  exists cat,
    In cat (categories config frame)
    /\ drawItem format_3s interpolateBlues config frame
         {| category := cat; pivotIndex := i |} = Ok item.
Proof.
  unfold drawRow. intros H Hin. apply mapM_Ok_inv in H.
  destruct (Forall2_In_r _ _ _ _ H Hin) as (d & Hd & Hdraw).
  apply in_map_iff in Hd. destruct Hd as (cat & <- & Hcat). eauto.
Qed.

Lemma pivotAccesor_None (frame : DataFrame) :
  pivotAccesor frame = None
  <-> (forall field, In field (fields frame) -> name field <> "pivot").
Proof.
  unfold pivotAccesor, CHART_REQUIRED_FIELDS_pivot. split.
  - intros H field Hin Hname.
    apply (find_none _ _ H) in Hin. cbv beta in Hin.
    apply String.eqb_neq in Hin. contradiction.
  - intros H. destruct (find _ _) as [field|] eqn:E; [|reflexivity].
    apply find_some in E. destruct E as [Hin Hname].
    apply String.eqb_eq in Hname. exfalso. exact (H field Hin Hname).
Qed.

(** What the component returned when it returned a chart. *)
Lemma HeatmapPanel_inv (options : HeatmapOptions) (frame : DataFrame)
    (others : list DataFrame) (chart : Chart) :
  HeatmapPanel format_3s interpolateBlues options {| series := frame :: others |} = Ok chart ->
  config chart = mkConfig options
  /\ mapM (drawRow format_3s interpolateBlues (mkConfig options) frame) (pivotIndices frame)
     = Ok (rows chart).
Proof.
  unfold HeatmapPanel. cbn [series]. intros H.
  destruct (pivotAccesor frame); [|discriminate].
  destruct (mapM _ _) as [rs|]; [|discriminate].
  cbn [bind] in H. injection H as <-. split; reflexivity.
Qed.

(** C4.  A table without a column named [pivot] makes the component throw
    an error that names the missing field, and nothing is drawn; a table
    with such a column is drawn, so the error is not thrown. *)
Theorem missing_pivot_throws (options : HeatmapOptions) (frame : DataFrame)
    (others : list DataFrame) :
  let data := {| series := frame :: others |} in
  ((forall field, In field (fields frame) -> name field <> "pivot") ->
   HeatmapPanel format_3s interpolateBlues options data
   = Throw (Error "Required fields not present: pivot"))
  /\ ((exists field, In field (fields frame) /\ name field = "pivot") ->
      exists chart, HeatmapPanel format_3s interpolateBlues options data = Ok chart).
Proof.
  intros data. unfold HeatmapPanel, data. cbn [series]. split.
  - intros H. apply pivotAccesor_None in H. rewrite H. reflexivity.
  - intros (field & Hin & Hname).
    destruct (pivotAccesor frame) eqn:E.
    + destruct (mapM_total (drawRow format_3s interpolateBlues (mkConfig options) frame)
                  (pivotIndices frame)) as [rs ->]; [intros; apply drawRow_Ok|].
      cbn [bind]. eauto.
    + exfalso. exact (proj1 (pivotAccesor_None frame) E field Hin Hname).
Qed.

(** C7.  With the toggle flag off a click changes nothing: the handler
    returns the chart it was given, colour mode and fills included. *)
Theorem toggle_disabled_is_noop (frame : DataFrame) (chart : Chart) :
  toggleColor (config chart) = false ->
  toggleColoring interpolateBlues frame chart = Ok chart.
Proof. intros H. unfold toggleColoring. rewrite H. reflexivity. Qed.

(** *** Recolouring *)

(** Recolouring a drawn item under another mode gives the item drawn under
    that mode. *)
Lemma recolor_item (config : Config) (mode : Z) (frame : DataFrame) (d : Cell) (item : Item) :
  drawItem format_3s interpolateBlues config frame d = Ok item ->
  exists item',
    drawItem format_3s interpolateBlues (set_colorBy config mode) frame d = Ok item'
    /\ (let* c := getColor interpolateBlues (set_colorBy config mode) frame (datum item) in
        Ok (set_fill item c)) = Ok item'.
Proof.
  intros H. apply drawItem_inv in H.
  destruct H as (c & shown & v & _ & Hs & Hv & ->).
  assert (Hv' : getValues (set_colorBy config mode) frame d = Ok v) by exact Hv.
  assert (Hs' : formatValue (set_colorBy config mode) frame d = Ok shown) by exact Hs.
  destruct (getColor_Ok _ _ _ _ Hv') as [c' Hc'].
  unfold drawItem. cbn [datum]. rewrite Hc', Hs', Hv'. cbn [bind].
  eexists. split; reflexivity.
Qed.

Lemma recolor_items (config : Config) (mode : Z) (frame : DataFrame) (cells : list Cell) :
  forall row,
    mapM (drawItem format_3s interpolateBlues config frame) cells = Ok row ->
    exists row',
      mapM (drawItem format_3s interpolateBlues (set_colorBy config mode) frame) cells = Ok row'
      /\ mapM (fun item =>
                 let* c := getColor interpolateBlues (set_colorBy config mode) frame
                             (datum item) in
                 Ok (set_fill item c)) row = Ok row'.
Proof.
  induction cells as [|d cells IH]; intros row H; cbn [mapM] in H.
  - injection H as <-. exists []. split; reflexivity.
  - destruct (drawItem _ _ config frame d) as [item|] eqn:Ed; [|discriminate].
    destruct (mapM _ cells) as [items|] eqn:Em; [|discriminate].
    cbn [bind] in H. injection H as <-.
    destruct (recolor_item config mode frame d item Ed) as (item' & Hd' & Hr).
    destruct (IH items eq_refl) as (items' & Hm' & Hrs).
    exists (item' :: items'). cbn [mapM]. rewrite Hd', Hm', Hr, Hrs.
    split; reflexivity.
Qed.

Lemma recolor_rows (config : Config) (mode : Z) (frame : DataFrame) (indices : list Z) :
  forall rows,
    mapM (drawRow format_3s interpolateBlues config frame) indices = Ok rows ->
    exists rows',
      mapM (drawRow format_3s interpolateBlues (set_colorBy config mode) frame) indices
      = Ok rows'
      /\ mapM (mapM (fun item =>
                       let* c := getColor interpolateBlues (set_colorBy config mode) frame
                                   (datum item) in
                       Ok (set_fill item c))) rows = Ok rows'.
Proof.
  induction indices as [|i indices IH]; intros rows H; cbn [mapM] in H.
  - injection H as <-. exists []. split; reflexivity.
  - destruct (drawRow _ _ config frame i) as [row|] eqn:Ed; [|discriminate].
    destruct (mapM _ indices) as [rs|] eqn:Em; [|discriminate].
    cbn [bind] in H. injection H as <-.
    destruct (recolor_items config mode frame _ row Ed) as (row' & Hd' & Hr).
    destruct (IH rs eq_refl) as (rs' & Hm' & Hrs).
    exists (row' :: rs'). cbn [mapM].
    change (drawRow format_3s interpolateBlues (set_colorBy config mode) frame i)
      with (mapM (drawItem format_3s interpolateBlues (set_colorBy config mode) frame)
              (map (fun category => {| category := category; pivotIndex := i |})
                   (categories config frame))).
    rewrite Hd', Hm', Hr, Hrs. split; reflexivity.
Qed.

(** A click on a chart that shows the frame, the toggle being enabled, gives
    the chart that shows it under the other mode. *)
Lemma toggle_shows (options : HeatmapOptions) (frame : DataFrame) (chart : Chart) :
  shows format_3s interpolateBlues options frame chart ->
  toggleColor (config chart) = true ->
  exists chart',
    toggleColoring interpolateBlues frame chart = Ok chart'
    /\ colorBy (config chart') = (colorBy (config chart) + 1) mod COLOR_OPTIONS_SIZE
    /\ shows format_3s interpolateBlues options frame chart'.
Proof.
  intros (Hmode & Hconfig & Hrows) Hon.
  set (mode := (colorBy (config chart) + 1) mod COLOR_OPTIONS_SIZE).
  destruct (recolor_rows (config chart) mode frame _ _ Hrows) as (rows' & Hdraw & Hrecolor).
  exists {| config := set_colorBy (config chart) mode; rows := rows' |}.
  split; [|split].
  - unfold toggleColoring. rewrite Hon. cbn [negb]. fold mode.
    rewrite Hrecolor. reflexivity.
  - reflexivity.
  - unfold shows. cbn [config rows colorBy set_colorBy]. repeat split.
    + unfold mode, COLOR_CELL_BY_change, COLOR_CELL_BY_heatmap, COLOR_OPTIONS_SIZE in *.
      destruct Hmode as [-> | ->]; [right | left]; reflexivity.
    + rewrite Hconfig. reflexivity.
    + exact Hdraw.
Qed.

Lemma reachable_shows (options : HeatmapOptions) (frame : DataFrame)
    (others : list DataFrame) (chart : Chart) :
  reachable format_3s interpolateBlues options frame others chart ->
  shows format_3s interpolateBlues options frame chart.
Proof.
  induction 1 as [chart Hdraw | chart chart' _ IH Hclick].
  - apply HeatmapPanel_inv in Hdraw. destruct Hdraw as [Hc Hr].
    unfold shows. rewrite Hc. repeat split; [left; reflexivity | exact Hr].
  - destruct (toggleColor (config chart)) eqn:Hon.
    + destruct (toggle_shows options frame chart IH Hon) as (chart'' & Ht & _ & Hs).
      congruence.
    + unfold toggleColoring in Hclick. rewrite Hon in Hclick. cbn [negb] in Hclick.
      injection Hclick as <-. exact IH.
Qed.

(** C6.  With the toggle enabled, two clicks in a row bring a chart back:
    the first click moves to the other colour mode, the second returns the
    very chart the clicks started from, so the mode and the fill of every
    cell are what they were. *)
Theorem toggle_twice_round_trip (options : HeatmapOptions) (frame : DataFrame)
    (others : list DataFrame) (chart : Chart) :
  reachable format_3s interpolateBlues options frame others chart ->
  opt_toggleColor options = true ->
  exists chart' chart'',
    toggleColoring interpolateBlues frame chart = Ok chart'
    /\ colorBy (config chart') <> colorBy (config chart)
    /\ toggleColoring interpolateBlues frame chart' = Ok chart''
    /\ colorBy (config chart'') = colorBy (config chart)
    /\ map (map fill) (rows chart'') = map (map fill) (rows chart)
    /\ chart'' = chart.
Proof.
  intros Hreach Hon. apply reachable_shows in Hreach.
  assert (Hon1 : toggleColor (config chart) = true).
  { destruct Hreach as (_ & -> & _). exact Hon. }
  destruct (toggle_shows options frame chart Hreach Hon1) as (chart1 & Ht1 & Hm1 & Hs1).
  assert (Hon2 : toggleColor (config chart1) = true).
  { destruct Hs1 as (_ & -> & _). exact Hon. }
  destruct (toggle_shows options frame chart1 Hs1 Hon2) as (chart2 & Ht2 & Hm2 & Hs2).
  assert (Hsame : chart2 = chart).
  { assert (Hmode : colorBy (config chart2) = colorBy (config chart)).
    { rewrite Hm2, Hm1. destruct Hreach as ([-> | ->] & _); reflexivity. }
    destruct Hreach as (_ & Hc & Hr). destruct Hs2 as (_ & Hc2 & Hr2).
    assert (Hconfig : config chart2 = config chart) by congruence.
    rewrite Hconfig in Hr2.
    assert (Hrows : rows chart2 = rows chart) by congruence.
    destruct chart2, chart. cbn in *. congruence. }
  exists chart1, chart2. split; [exact Ht1|]. split; [|split; [exact Ht2|]].
  - rewrite Hm1. destruct Hreach as ([-> | ->] & _); discriminate.
  - rewrite Hsame. repeat split.
Qed.

(** *** The by-change colour *)

(** Where a change falls among the control points [-1.5], [0], [1.5]. *)
Lemma bisect_change_domain (x : float) :
  D3.bisectRight [-1.5; 0; 1.5]%float x 1 2 = if (x <? 0)%float then 1 else 2.
Proof.
  unfold D3.bisectRight. cbn [List.length D3.bisect_loop].
  change (1 <? 2) with true. change (Z.shiftr (1 + 2) 1) with 1.
  change (index [-1.5; 0; 1.5]%float 1) with (Some 0%float).
  cbv beta iota. unfold D3.ascending.
  destruct (x <? 0)%float eqn:E.
  - rewrite (ltb_antisym _ _ E). reflexivity.
  - destruct (0 <? x)%float; [reflexivity|].
    destruct (x <=? 0)%float; reflexivity.
Qed.

(** The scale is linear in RGB between neighbouring control points, and
    gives no colour for [NaN]. *)
Lemma colorByChange_piecewise (x : float) :
  colorByChange x
  = if is_nan x then None
    else Some (if (x <? 0)%float
               then D3.interpolateRgb D3.red D3.pale_yellow ((x - -1.5) / 1.5)%float
               else D3.interpolateRgb D3.pale_yellow D3.green ((x - 0) / 1.5)%float).
Proof.
  unfold colorByChange, D3.scaleLinear. destruct (is_nan x); [reflexivity|]. f_equal.
  unfold D3.polymap. cbn [List.length].
  change (Z.min (Z.of_nat 3) (Z.of_nat 3) - 1) with 2.
  change (index [-1.5; 0; 1.5]%float 2) with (Some 1.5%float).
  change (index [-1.5; 0; 1.5]%float 0) with (Some (-1.5)%float).
  change (1.5 <? -1.5)%float with false. cbv beta iota.
  rewrite bisect_change_domain. destruct (x <? 0)%float; reflexivity.
Qed.

Lemma clampedChange_in_range (c : float) :
  is_nan c = false ->
  ((-1 <=? clampedChange c) && (clampedChange c <=? 1))%float = true.
Proof.
  intros Hc. unfold clampedChange.
  destruct (1 <? c)%float eqn:E1; [reflexivity|].
  destruct (c <? -1)%float eqn:E2; [reflexivity|].
  rewrite (not_ltb_leb (-1) c eq_refl Hc E2), (not_ltb_leb c 1 Hc eq_refl E1).
  reflexivity.
Qed.

Lemma clampedChange_nan (c : float) : is_nan (clampedChange c) = is_nan c.
Proof.
  unfold clampedChange.
  destruct (1 <? c)%float eqn:E1.
  - rewrite (ltb_not_nan_r _ _ E1). reflexivity.
  - destruct (c <? -1)%float eqn:E2; [|reflexivity].
    rewrite (ltb_not_nan _ _ E2). reflexivity.
Qed.

Lemma clampedChange_within (c : float) :
  ((-1 <=? c) && (c <=? 1))%float = true -> clampedChange c = c.
Proof.
  intros H. apply andb_true_iff in H. destruct H as [Hlo Hhi].
  unfold clampedChange. rewrite (leb_not_ltb _ _ Hhi), (leb_not_ltb _ _ Hlo).
  reflexivity.
Qed.

(** The by-change scale gives no colour exactly for [NaN]. *)
Lemma colorByChange_None (x : float) : colorByChange x = None <-> is_nan x = true.
Proof.
  rewrite colorByChange_piecewise.
  destruct (is_nan x); split; intros H; try reflexivity; discriminate H.
Qed.

(** The colour [colorChange] picks is missing exactly when both values are
    non-zero and the change is [NaN]. *)
Lemma by_change_None (v : Values) :
  (if (currentValue v =? 0)%float then colorByChange 0
   else if (referenceValue v =? 0)%float then colorByChange 0.5
   else colorByChange (clampedChange (change v))) = None
  <-> (currentValue v =? 0)%float = false
      /\ (referenceValue v =? 0)%float = false
      /\ is_nan (change v) = true.
Proof.
  split.
  - intros H.
    destruct (currentValue v =? 0)%float; [discriminate H|].
    destruct (referenceValue v =? 0)%float; [discriminate H|].
    apply colorByChange_None in H. rewrite clampedChange_nan in H.
    split_ands; try reflexivity. exact H.
  - intros (-> & -> & Hn). apply colorByChange_None.
    rewrite clampedChange_nan. exact Hn.
Qed.

(** C2.  Under the by-change mode the fill of a cell is the by-change scale
    at [0] when the current value is zero; otherwise at [0.5] when the
    reference value is zero; otherwise at the change clamped to [[-1, 1]]
    (changes above [1] go to [1], below [-1] to [-1], those within stay, and
    a change that is not a number stays so).  The scale passes through red
    at [-1.5], pale yellow at [0] and green at [1.5]; between neighbouring
    control points every RGB channel is linear in the change; for [NaN] it
    gives [undefined], so that the cell gets no fill.  A cell therefore has
    a fill colour unless both values are non-zero and the change is [NaN]. *)
Theorem colorChange_spec (config : Config) (frame : DataFrame) (d : Cell) (v : Values) :
  colorBy config = COLOR_CELL_BY_change ->
  getValues config frame d = Ok v ->
  getColor interpolateBlues config frame d
  = Ok (if (currentValue v =? 0)%float then colorByChange 0
        else if (referenceValue v =? 0)%float then colorByChange 0.5
        else colorByChange (clampedChange (change v)))
  /\ (forall c, (1 <? c)%float = true -> clampedChange c = 1%float)
  /\ (forall c, (c <? -1)%float = true -> clampedChange c = (-1)%float)
  /\ (forall c, ((-1 <=? c) && (c <=? 1))%float = true -> clampedChange c = c)
  /\ (forall c, is_nan c = false ->
                ((-1 <=? clampedChange c) && (clampedChange c <=? 1))%float = true)
  /\ (forall c, is_nan c = true -> is_nan (clampedChange c) = true)
  /\ colorByChange (-1.5) = Some "rgb(255, 0, 0)"
  /\ colorByChange 0 = Some "rgb(250, 248, 193)"
  /\ colorByChange 1.5 = Some "rgb(0, 128, 0)"
  /\ (forall x, (x <? 0)%float = true ->
        let t := ((x - -1.5) / 1.5)%float in
        colorByChange x
        = Some (D3.rgb_toString (D3.RGB (255 + t * (250 - 255)) (0 + t * (248 - 0))
                                        (0 + t * (193 - 0)))%float))
  /\ (forall x, is_nan x = false -> (x <? 0)%float = false ->
        let t := ((x - 0) / 1.5)%float in
        colorByChange x
        = Some (D3.rgb_toString (D3.RGB (250 + t * (0 - 250)) (248 + t * (128 - 248))
                                        (193 + t * (0 - 193)))%float))
  /\ (forall x, is_nan x = true -> colorByChange x = None)
  /\ (getColor interpolateBlues config frame d = Ok None
      <-> (currentValue v =? 0)%float = false
          /\ (referenceValue v =? 0)%float = false
          /\ is_nan (change v) = true).
Proof.
  intros Hmode Hv.
  assert (Hcolor : getColor interpolateBlues config frame d
                   = Ok (if (currentValue v =? 0)%float then colorByChange 0
                         else if (referenceValue v =? 0)%float then colorByChange 0.5
                         else colorByChange (clampedChange (change v)))).
  { unfold getColor, colorChange. rewrite Hmode, Hv. reflexivity. }
  split_ands.
  - exact Hcolor.
  - intros c H. unfold clampedChange. rewrite H. reflexivity.
  - intros c H. unfold clampedChange. rewrite (ltb_antisym_1 c H), H. reflexivity.
  - apply clampedChange_within.
  - apply clampedChange_in_range.
  - intros c H. rewrite clampedChange_nan. exact H.
  - vm_compute. reflexivity.
  - vm_compute. reflexivity.
  - vm_compute. reflexivity.
  - intros x Hx t. rewrite colorByChange_piecewise, (ltb_not_nan _ _ Hx), Hx. reflexivity.
  - intros x Hn Hx t. rewrite colorByChange_piecewise, Hn, Hx. reflexivity.
  - intros x Hn. apply colorByChange_None. exact Hn.
  - rewrite Hcolor. rewrite <- by_change_None.
    split; intros H; [injection H as H; exact H | rewrite H; reflexivity].
Qed.

(** *** Pruning of empty columns *)

Lemma filter_filter {A : Type} (f g : A -> bool) (l : list A) :
  filter f (filter g l) = filter (fun a => g a && f a) l.
Proof.
  induction l as [|a l IH]; [reflexivity|]. cbn [filter].
  destruct (g a); cbn [filter andb]; rewrite IH; reflexivity.
Qed.

Lemma filter_ext_pointwise {A : Type} (f g : A -> bool) (l : list A) :
  (forall a, f a = g a) -> filter f l = filter g l.
Proof.
  intros H. induction l as [|a l IH]; [reflexivity|]. cbn [filter].
  rewrite H, IH. reflexivity.
Qed.

(** Taking the zero-sum columns out of the frame beforehand changes nothing
    of the kept columns. *)
Lemma categoryFields_without_zero_sum (options : HeatmapOptions) (frame : DataFrame) :
  categoryFields (mkConfig options) (without_zero_sum frame)
  = categoryFields (mkConfig options) frame.
Proof.
  unfold categoryFields, baseCategoryFields, without_zero_sum.
  cbn [removeEmptyCols mkConfig negb Grafana.fields].
  rewrite !filter_filter. apply filter_ext_pointwise. intros field.
  destruct (name field =? CHART_REQUIRED_FIELDS_pivot)%string; [reflexivity|].
  cbn [orb negb andb].
  destruct (0 <? D3.sum (values field))%float eqn:E.
  - rewrite (ltb_zero_not_eqb _ E). reflexivity.
  - rewrite andb_false_r. reflexivity.
Qed.

(** C3, as the code has it.  The kept category columns are the columns other
    than [pivot] whose sum is strictly positive, in table order.  So a
    column whose values sum to 0 is in neither the category list nor the
    colour domain: with such columns taken out of the table beforehand both
    come out the same. *)
Theorem empty_columns_pruned (options : HeatmapOptions) (frame : DataFrame) :
  let config := mkConfig options in
  categoryFields config frame
  = filter (fun field => negb (name field =? "pivot")%string
                         && (0 <? D3.sum (values field))%float) (fields frame)
  /\ (forall field,
        In field (baseCategoryFields frame) ->
        (D3.sum (values field) =? 0)%float = true ->
        ~ In field (categoryFields config frame))
  /\ categories config (without_zero_sum frame) = categories config frame
  /\ categoryExtent config (without_zero_sum frame) = categoryExtent config frame.
Proof.
  intros config. split_ands.
  - unfold categoryFields, baseCategoryFields. cbn [removeEmptyCols config mkConfig negb].
    apply filter_filter.
  - intros field _ Hzero Hin.
    unfold categoryFields in Hin. cbn [removeEmptyCols config mkConfig negb] in Hin.
    apply filter_In in Hin. destruct Hin as [_ Hpos].
    rewrite (eqb_zero_not_ltb _ Hzero) in Hpos. discriminate.
  - unfold categories, config. rewrite categoryFields_without_zero_sum. reflexivity.
  - unfold categoryExtent, config. rewrite categoryFields_without_zero_sum. reflexivity.
Qed.

(** *** Labels *)

Lemma ToBoolean_true (x : float) :
  ToBoolean x = true <-> (x =? 0)%float = false /\ is_nan x = false.
Proof.
  unfold ToBoolean. rewrite negb_true_iff, orb_false_iff. reflexivity.
Qed.

(** A reference value is never [NaN]. *)
Lemma or_else_zero_not_nan (a : float) : is_nan (or_else a 0) = false.
Proof.
  destruct (or_else_zero_cases a) as [[Ht ->] | [_ ->]]; [|reflexivity].
  apply ToBoolean_true in Ht. tauto.
Qed.

(** C5, as the code has it.  For every cell drawn, the first label line is
    the dash when the current value is zero or [NaN] and the SI-formatted
    current value otherwise; the second line is drawn if and only if the
    current value is neither zero nor [NaN] and the reference value is not
    zero, and it then shows the change as a percentage with one decimal. *)
Theorem labels_spec (options : HeatmapOptions) (frame : DataFrame)
    (others : list DataFrame) (chart : Chart) (row : list Item) (item : Item) :
  HeatmapPanel format_3s interpolateBlues options {| series := frame :: others |} = Ok chart ->
  In row (rows chart) ->
  In item row ->
  exists v,
    getValues (mkConfig options) frame (datum item) = Ok v
    /\ text (line1 item)
       = (if (currentValue v =? 0)%float || is_nan (currentValue v) then "-"
          else format_3s (currentValue v))
    /\ is_nan (referenceValue v) = false
    /\ (line2 item <> None
        <-> (currentValue v =? 0)%float = false /\ is_nan (currentValue v) = false
            /\ (referenceValue v =? 0)%float = false)
    /\ (forall span, line2 item = Some span ->
                     text span = D3.format_fixed true 1 (JNumber (change v))).
Proof.
  intros Hdraw Hrow Hitem.
  apply HeatmapPanel_inv in Hdraw. destruct Hdraw as [_ Hrows].
  apply mapM_Ok_inv in Hrows.
  destruct (Forall2_In_r _ _ _ _ Hrows Hrow) as (i & _ & Hi).
  destruct (drawRow_items _ _ _ _ _ Hi Hitem) as (cat & Hcat & Hd).
  apply drawItem_inv in Hd. destruct Hd as (c & shown & v & _ & _ & Hv & ->).
  assert (Hnan : is_nan (referenceValue v) = false).
  { destruct (getValues_Ok (mkConfig options) frame cat i Hcat) as (field & _ & Hv').
    rewrite Hv in Hv'. injection Hv' as ->. cbv zeta. cbn [referenceValue].
    apply or_else_zero_not_nan. }
  exists v. cbn [datum line1 line2]. split_ands.
  - exact Hv.
  - unfold valueLabel. cbn [text]. unfold ToBoolean.
    destruct ((currentValue v =? 0)%float || is_nan (currentValue v)); reflexivity.
  - exact Hnan.
  - unfold changeLabel.
    destruct (ToBoolean (currentValue v)) eqn:Ec, (ToBoolean (referenceValue v)) eqn:Er;
      cbn [andb].
    + apply ToBoolean_true in Ec, Er. split; [tauto | intros _; discriminate].
    + apply ToBoolean_false in Er. rewrite Hnan in Er.
      split; [congruence|]. intros (_ & _ & H). destruct Er; congruence.
    + apply ToBoolean_false in Ec.
      split; [congruence|]. intros (H1 & H2 & _). destruct Ec; congruence.
    + apply ToBoolean_false in Ec.
      split; [congruence|]. intros (H1 & H2 & _). destruct Ec; congruence.
  - unfold changeLabel. intros span H.
    destruct (ToBoolean (currentValue v) && ToBoolean (referenceValue v)); [|discriminate].
    injection H as <-. reflexivity.
Qed.

(** C8.  In the scenario table, bottom to top, the cell of row [A] has
    current value 10, reference value 20 and change [-0.5].  The cell of row
    [C] has current value 0 and, whatever the direction (its reference is
    then the missing row, read as 0, or row [B], 20), its label is the dash
    and its by-change colour is the neutral one, the scale at change 0. *)
Theorem scenario_cells (toggle : bool) :
  getValues (mkConfig {| opt_changeDirection := bottomToTop; opt_toggleColor := toggle |})
    scenario {| category := "X"; pivotIndex := 0 |}
  = Ok {| currentValue := 10; referenceValue := 20; change := (-0.5)%float |}
  /\ (forall direction,
        let config :=
          mkConfig {| opt_changeDirection := direction; opt_toggleColor := toggle |} in
        let d := {| category := "X"; pivotIndex := 2 |} in
        exists v,
          getValues config scenario d = Ok v
          /\ currentValue v = 0%float
          /\ referenceValue v
             = match direction with bottomToTop => 0%float | topToBottom => 20%float end
          /\ text (valueLabel format_3s v) = "-"
          /\ changeLabel v = None
          /\ getColor interpolateBlues config scenario d = Ok (colorByChange 0))
  /\ colorByChange 0 = Some "rgb(250, 248, 193)"
  /\ match HeatmapPanel format_3s interpolateBlues
             {| opt_changeDirection := bottomToTop; opt_toggleColor := toggle |}
             {| series := [scenario] |} with
     | Ok chart =>
         match nth_error (rows chart) 2 with
         | Some [item] =>
             datum item = {| category := "X"; pivotIndex := 2 |}
             /\ fill item = Some "rgb(250, 248, 193)"
             /\ text (line1 item) = "-"
             /\ line2 item = None
         | _ => False
         end
     | Throw _ => False
     end.
Proof.
  split_ands.
  - vm_compute. reflexivity.
  - intros direction config d. subst config d.
    destruct direction; eexists; (split; [vm_compute; reflexivity|]);
      split_ands; vm_compute; reflexivity.
  - vm_compute. reflexivity.
  - vm_compute. split_ands; reflexivity.
Qed.

(** C10.  In one frame, a cell whose reference row does not exist and a cell
    with the same current value whose reference entry is a stored zero get
    the same values from [getValues], with reference value 0; hence the same
    colour under either mode and the same label lines. *)
Theorem missing_reference_like_zero (config : Config) (frame : DataFrame)
    (d1 d2 : Cell) (field1 field2 : Field) (zero : float) :
  well_formed frame ->
  find (fun field => name field =? category d1)%string (categoryFields config frame)
  = Some field1 ->
  find (fun field => name field =? category d2)%string (categoryFields config frame)
  = Some field2 ->
  twoDecimals (get (values field1) (pivotIndex d1))
  = twoDecimals (get (values field2) (pivotIndex d2)) ->
  in_rows frame (pivotIndex d1 + referenceChange config) = false ->
  index (values field2) (pivotIndex d2 + referenceChange config) = Some (JNumber zero) ->
  (zero =? 0)%float = true ->
  exists v,
    getValues config frame d1 = Ok v
    /\ getValues config frame d2 = Ok v
    /\ referenceValue v = 0%float
    /\ change v = ((currentValue v - 0) / 0)%float
    /\ getColor interpolateBlues config frame d1 = getColor interpolateBlues config frame d2
    /\ (forall v1 v2,
          getValues config frame d1 = Ok v1 -> getValues config frame d2 = Ok v2 ->
          valueLabel format_3s v1 = valueLabel format_3s v2
          /\ changeLabel v1 = changeLabel v2).
Proof.
  intros Hwf Hf1 Hf2 Hsame Hout Hin Hzero.
  assert (Hnone : index (values field1) (pivotIndex d1 + referenceChange config) = None).
  { apply index_None_iff.
    assert (Hlen : List.length (values field1) = Grafana.length frame).
    { unfold well_formed in Hwf. rewrite Forall_forall in Hwf. apply Hwf.
      apply find_some in Hf1. apply (categoryFields_incl config). tauto. }
    rewrite Hlen. unfold in_rows in Hout.
    apply andb_false_iff in Hout. rewrite Z.leb_gt, Z.ltb_ge in Hout. lia. }
  assert (Hr1 : or_else (twoDecimals (get (values field1)
                           (pivotIndex d1 + referenceChange config))) 0 = 0%float).
  { unfold get. rewrite Hnone. vm_compute. reflexivity. }
  assert (Hr2 : or_else (twoDecimals (get (values field2)
                           (pivotIndex d2 + referenceChange config))) 0 = 0%float).
  { unfold get. rewrite Hin.
    destruct (eqb_zero_inv zero Hzero) as [-> | ->]; vm_compute; reflexivity. }
  assert (H1 : getValues config frame d1
               = Ok (let current := twoDecimals (get (values field1) (pivotIndex d1)) in
                     {| currentValue := current; referenceValue := 0;
                        change := ((current - 0) / 0)%float |})).
  { unfold getValues, formatValue. cbn [category pivotIndex]. rewrite Hf1.
    cbn [bind]. fold (twoDecimals (get (values field1) (pivotIndex d1))).
    fold (twoDecimals (get (values field1) (pivotIndex d1 + referenceChange config))).
    rewrite Hr1. reflexivity. }
  assert (H2 : getValues config frame d2
               = Ok (let current := twoDecimals (get (values field1) (pivotIndex d1)) in
                     {| currentValue := current; referenceValue := 0;
                        change := ((current - 0) / 0)%float |})).
  { unfold getValues, formatValue. cbn [category pivotIndex]. rewrite Hf2.
    cbn [bind]. fold (twoDecimals (get (values field2) (pivotIndex d2))).
    fold (twoDecimals (get (values field2) (pivotIndex d2 + referenceChange config))).
    rewrite Hr2, <- Hsame. reflexivity. }
  eexists. split; [exact H1|]. split; [exact H2|]. cbv zeta.
  cbn [referenceValue change currentValue]. split_ands; try reflexivity.
  - unfold getColor, colorChange, colorHeatmap. rewrite H1, H2. reflexivity.
  - intros v1 v2 E1 E2. rewrite H1 in E1. rewrite H2 in E2.
    assert (v1 = v2) by congruence. subst v2. split; reflexivity.
Qed.

End PanelFacts.

(** ** The theorems at concrete tables *)

(** C1 at the scenario's cell (X, row A), bottom to top. *)
Lemma getValues_spec_witness :
  exists field v,
    find (fun field => name field =? "X")%string
         (categoryFields (mkConfig scenario_options) scenario) = Some field
    /\ name field = "X"
    /\ index (values field) 0 = Some v
    /\ getValues (mkConfig scenario_options) scenario {| category := "X"; pivotIndex := 0 |}
       = Ok {| currentValue := twoDecimals v;
               referenceValue :=
                 match (if in_rows scenario (0 + 1)
                        then index (values field) (0 + 1) else None) with
                 | Some w => if ToBoolean (twoDecimals w) then twoDecimals w else 0%float
                 | None => 0%float
                 end;
               change :=
                 ((twoDecimals v
                   - match (if in_rows scenario (0 + 1)
                            then index (values field) (0 + 1) else None) with
                     | Some w => if ToBoolean (twoDecimals w) then twoDecimals w else 0%float
                     | None => 0%float
                     end)
                  / match (if in_rows scenario (0 + 1)
                           then index (values field) (0 + 1) else None) with
                    | Some w => if ToBoolean (twoDecimals w) then twoDecimals w else 0%float
                    | None => 0%float
                    end)%float |}.
Proof.
  refine (proj1 (getValues_spec scenario_options scenario "X" 0 _ _ _)).
  - unfold well_formed. repeat constructor.
  - vm_compute. left. reflexivity.
  - reflexivity.
Defined.

(** C9 at the scenario's last row, whose reference row does not exist. *)
Lemma getValues_raises_no_error_witness :
  (exists current,
      formatValue (mkConfig scenario_options) scenario
        {| category := "X"; pivotIndex := 2 |} = Ok current)
  /\ (exists reference,
        formatValue (mkConfig scenario_options) scenario
          {| category := "X";
             pivotIndex := 2 + referenceChange (mkConfig scenario_options) |} = Ok reference)
  /\ (exists v,
        getValues (mkConfig scenario_options) scenario
          {| category := "X"; pivotIndex := 2 |} = Ok v).
Proof.
  apply (getValues_raises_no_error (mkConfig scenario_options) scenario "X" 2).
  - vm_compute. left. reflexivity.
  - reflexivity.
Defined.

(** C4 at the scenario table, without and with its pivot column. *)
Lemma missing_pivot_throws_witness :
  HeatmapPanel plain_format plain_ramp scenario_options
    {| series := [scenario_without_pivot] |}
  = Throw (Error "Required fields not present: pivot")
  /\ exists chart,
       HeatmapPanel plain_format plain_ramp scenario_options {| series := [scenario] |}
       = Ok chart.
Proof.
  split.
  - apply (proj1 (missing_pivot_throws plain_format plain_ramp scenario_options
                    scenario_without_pivot [])).
    intros field [<- | []]. discriminate.
  - apply (proj2 (missing_pivot_throws plain_format plain_ramp scenario_options
                    scenario [])).
    eexists. split; [left; reflexivity | reflexivity].
Defined.

(** C7 at the chart drawn from the scenario with the toggle off. *)
Lemma toggle_disabled_is_noop_witness :
  exists chart,
    HeatmapPanel plain_format plain_ramp
      {| opt_changeDirection := bottomToTop; opt_toggleColor := false |}
      {| series := [scenario] |} = Ok chart
    /\ toggleColoring plain_ramp scenario chart = Ok chart.
Proof.
  eexists. split.
  - vm_compute. reflexivity.
  - apply toggle_disabled_is_noop. reflexivity.
Defined.

(** C6 at the chart drawn from the scenario. *)
Lemma toggle_twice_round_trip_witness :
  exists chart,
    HeatmapPanel plain_format plain_ramp scenario_options {| series := [scenario] |}
    = Ok chart
    /\ exists chart' chart'',
         toggleColoring plain_ramp scenario chart = Ok chart'
         /\ colorBy (config chart') <> colorBy (config chart)
         /\ toggleColoring plain_ramp scenario chart' = Ok chart''
         /\ colorBy (config chart'') = colorBy (config chart)
         /\ map (map fill) (rows chart'') = map (map fill) (rows chart)
         /\ chart'' = chart.
Proof.
  eexists. split.
  - vm_compute. reflexivity.
  - apply (toggle_twice_round_trip plain_format plain_ramp scenario_options scenario []).
    + apply reach_draw. vm_compute. reflexivity.
    + reflexivity.
Defined.

(** C2 at the scenario's cell (X, row A): change [-0.5], within the clamp. *)
Lemma colorChange_spec_witness :
  getColor plain_ramp (mkConfig scenario_options) scenario
    {| category := "X"; pivotIndex := 0 |}
  = Ok (colorByChange (clampedChange (-0.5))).
Proof.
  refine (proj1 (colorChange_spec plain_ramp (mkConfig scenario_options) scenario
                   {| category := "X"; pivotIndex := 0 |}
                   {| currentValue := 10; referenceValue := 20; change := (-0.5)%float |}
                   _ _)).
  - reflexivity.
  - vm_compute. reflexivity.
Defined.

(** C10 at the cells (X, row C), whose reference row is missing, and
    (X, row A), whose reference entry is a stored 0: both have current
    value 10. *)
Lemma missing_reference_like_zero_witness :
  exists v,
    getValues (mkConfig scenario_options) zero_between_tens
      {| category := "X"; pivotIndex := 2 |} = Ok v
    /\ getValues (mkConfig scenario_options) zero_between_tens
         {| category := "X"; pivotIndex := 0 |} = Ok v
    /\ referenceValue v = 0%float
    /\ change v = ((currentValue v - 0) / 0)%float
    /\ getColor plain_ramp (mkConfig scenario_options) zero_between_tens
         {| category := "X"; pivotIndex := 2 |}
       = getColor plain_ramp (mkConfig scenario_options) zero_between_tens
           {| category := "X"; pivotIndex := 0 |}
    /\ (forall v1 v2,
          getValues (mkConfig scenario_options) zero_between_tens
            {| category := "X"; pivotIndex := 2 |} = Ok v1 ->
          getValues (mkConfig scenario_options) zero_between_tens
            {| category := "X"; pivotIndex := 0 |} = Ok v2 ->
          valueLabel plain_format v1 = valueLabel plain_format v2
          /\ changeLabel v1 = changeLabel v2).
Proof.
  apply (missing_reference_like_zero plain_format plain_ramp
           (mkConfig scenario_options) zero_between_tens
           {| category := "X"; pivotIndex := 2 |} {| category := "X"; pivotIndex := 0 |}
           {| name := "X"; values := [JNumber 10; JNumber 0; JNumber 10] |}
           {| name := "X"; values := [JNumber 10; JNumber 0; JNumber 10] |}
           0%float).
  - unfold well_formed. repeat constructor.
  - vm_compute. reflexivity.
  - vm_compute. reflexivity.
  - reflexivity.
  - reflexivity.
  - reflexivity.
  - reflexivity.
Defined.

(** C5 at the scenario's cell (X, row A). *)
Lemma labels_spec_witness :
  exists chart row item,
    HeatmapPanel plain_format plain_ramp scenario_options {| series := [scenario] |}
    = Ok chart
    /\ In row (rows chart)
    /\ In item row
    /\ exists v,
         getValues (mkConfig scenario_options) scenario (datum item) = Ok v
         /\ text (line1 item)
            = (if (currentValue v =? 0)%float || is_nan (currentValue v) then "-"
               else plain_format (currentValue v))
         /\ is_nan (referenceValue v) = false
         /\ (line2 item <> None
             <-> (currentValue v =? 0)%float = false /\ is_nan (currentValue v) = false
                 /\ (referenceValue v =? 0)%float = false)
         /\ (forall span, line2 item = Some span ->
                          text span = D3.format_fixed true 1 (JNumber (change v))).
Proof.
  assert (Hdraw : exists chart,
             HeatmapPanel plain_format plain_ramp scenario_options {| series := [scenario] |}
             = Ok chart
             /\ exists row item, In row (rows chart) /\ In item row).
  { eexists. split; [vm_compute; reflexivity|].
    eexists. eexists. split.
    - cbn [rows In]. left. reflexivity.
    - cbn [In]. left. reflexivity. }
  destruct Hdraw as (chart & Hchart & row & item & Hrow & Hitem).
  exists chart, row, item. split; [exact Hchart|]. split; [exact Hrow|].
  split; [exact Hitem|].
  exact (labels_spec plain_format plain_ramp scenario_options scenario [] chart row item
           Hchart Hrow Hitem).
Defined.

(** C3 as claimed fails: a category column whose sum is not 0 need not be
    kept.  The column of [negative_table] sums to [-3] and is dropped. *)
Lemma nonzero_sum_column_dropped :
  In negative_column (baseCategoryFields negative_table)
  /\ D3.sum (values negative_column) = (-3)%float
  /\ (D3.sum (values negative_column) =? 0)%float = false
  /\ categoryFields (mkConfig scenario_options) negative_table = []
  /\ categories (mkConfig scenario_options) negative_table = [].
Proof.
  split_ands; try (vm_compute; reflexivity).
  left. reflexivity.
Qed.

(** C5 as claimed fails: in [nan_table], bottom to top, the cell of row [A]
    has current value [NaN] and reference value 5, both different from
    zero; yet its first line is the dash, not the formatted value, and its
    second line is not drawn. *)
Lemma nonzero_values_without_percentage :
  match HeatmapPanel plain_format plain_ramp scenario_options {| series := [nan_table] |} with
  | Ok chart =>
      match rows chart with
      | [item] :: _ =>
          datum item = {| category := "X"; pivotIndex := 0 |}
          /\ getValues (mkConfig scenario_options) nan_table (datum item)
             = Ok {| currentValue := nan; referenceValue := 5; change := nan |}
          /\ (nan =? 0)%float = false
          /\ (5 =? 0)%float = false
          /\ text (line1 item) = "-"
          /\ plain_format nan = "NaN"
          /\ line2 item = None
      | _ => False
      end
  | Throw _ => False
  end.
Proof. vm_compute. split_ands; reflexivity. Qed.

(** ** Further facts about the panel *)

Section MoreListFacts.
Context {A B : Type}.

Lemma mapM_map_back (f : A -> result B) (g : B -> A) (l : list A) :
  (forall a b, f a = Ok b -> g b = a) ->
  forall l', mapM f l = Ok l' -> map g l' = l.
Proof.
  intros Hg l' H. apply mapM_Ok_inv in H.
  induction H as [|a b l l' Hab _ IH]; [reflexivity|].
  cbn [map]. rewrite (Hg a b Hab), IH. reflexivity.
Qed.

Lemma Forall2_length_eq (R : A -> B -> Prop) (l : list A) (l' : list B) :
  Forall2 R l l' -> List.length l = List.length l'.
Proof. induction 1; cbn [List.length]; congruence. Qed.

End MoreListFacts.

Section MorePanelFacts.

Variable format_3s : float -> string.
Variable interpolateBlues : float -> string.

Lemma drawItem_datum (config : Config) (frame : DataFrame) (d : Cell) (item : Item) :
  drawItem format_3s interpolateBlues config frame d = Ok item -> datum item = d.
Proof.
  intros H. apply drawItem_inv in H. destruct H as (c & shown & v & _ & _ & _ & ->).
  reflexivity.
Qed.

Lemma drawRow_datums (config : Config) (frame : DataFrame) (i : Z) (row : list Item) :
  drawRow format_3s interpolateBlues config frame i = Ok row ->
  map datum row
  = map (fun c => {| category := c; pivotIndex := i |}) (categories config frame).
Proof.
  unfold drawRow. apply mapM_map_back. apply drawItem_datum.
Qed.

(** X1.  A drawn chart is a grid: it has one row per row of the frame
    (its [length], whatever the columns hold), every row has one cell per
    kept category column, and the cell at row [i] and column [c] is bound to
    the datum (category [c], pivot index [i]), rows and columns in table
    order. *)
Theorem chart_is_grid (options : HeatmapOptions) (frame : DataFrame)
    (others : list DataFrame) (chart : Chart) :
  HeatmapPanel format_3s interpolateBlues options {| series := frame :: others |} = Ok chart ->
  List.length (rows chart) = Grafana.length frame
  /\ Forall (fun row => List.length row
                        = List.length (categoryFields (mkConfig options) frame))
            (rows chart)
  /\ map (map datum) (rows chart)
     = map (fun i => map (fun c => {| category := c; pivotIndex := i |})
                         (categories (mkConfig options) frame))
           (D3.range (Grafana.length frame)).
Proof.
  intros H. apply HeatmapPanel_inv in H. destruct H as [_ Hrows].
  assert (Hmap : map (map datum) (rows chart)
                 = map (fun i => map (fun c => {| category := c; pivotIndex := i |})
                                     (categories (mkConfig options) frame))
                       (pivotIndices frame)).
  { apply mapM_Ok_inv in Hrows.
    induction Hrows as [|i row l l' Hi _ IH]; [reflexivity|].
    cbn [map]. rewrite (drawRow_datums _ _ _ _ Hi), IH. reflexivity. }
  split_ands.
  - apply (f_equal (@List.length _)) in Hmap. rewrite !length_map in Hmap.
    rewrite Hmap. unfold pivotIndices, D3.range. rewrite length_map, length_seq.
    reflexivity.
  - apply mapM_Ok_inv in Hrows. apply Forall_forall. intros row Hrow.
    destruct (Forall2_In_r _ _ _ _ Hrows Hrow) as (i & _ & Hi).
    apply drawRow_datums in Hi. apply (f_equal (@List.length _)) in Hi.
    rewrite !length_map in Hi. unfold categories in Hi. rewrite length_map in Hi.
    exact Hi.
  - exact Hmap.
Qed.


(** Every item of a drawn chart is the drawing of a cell of a kept category
    and a row index. *)
Lemma drawn_items (options : HeatmapOptions) (frame : DataFrame)
    (others : list DataFrame) (chart : Chart) (row : list Item) (item : Item) :
  HeatmapPanel format_3s interpolateBlues options {| series := frame :: others |} = Ok chart ->
  In row (rows chart) -> In item row ->
  exists cat i,
    In cat (categories (mkConfig options) frame)
    /\ drawRow format_3s interpolateBlues (mkConfig options) frame i = Ok row
    /\ drawItem format_3s interpolateBlues (mkConfig options) frame
         {| category := cat; pivotIndex := i |} = Ok item.
Proof.
  intros Hdraw Hrow Hitem.
  apply HeatmapPanel_inv in Hdraw. destruct Hdraw as [_ Hrows].
  apply mapM_Ok_inv in Hrows.
  destruct (Forall2_In_r _ _ _ _ Hrows Hrow) as (i & _ & Hi).
  destruct (drawRow_items _ _ _ _ _ _ _ Hi Hitem) as (cat & Hcat & Hd).
  exists cat, i. auto.
Qed.

Lemma getValues_inv (config : Config) (frame : DataFrame) (d : Cell) (v : Values) :
  getValues config frame d = Ok v ->
  exists reference,
    formatValue config frame d = Ok (currentValue v)
    /\ formatValue config frame
         {| category := category d; pivotIndex := pivotIndex d + referenceChange config |}
       = Ok reference
    /\ referenceValue v = or_else reference 0
    /\ change v = ((currentValue v - referenceValue v) / referenceValue v)%float.
Proof.
  unfold getValues. intros H.
  destruct (formatValue config frame d) as [current|]; [|discriminate].
  destruct (formatValue config frame _) as [reference|]; [|discriminate].
  cbn [bind] in H. injection H as <-. exists reference. cbn. auto.
Qed.

(** X2.  A freshly drawn chart is in the by-change mode: the fill of every
    cell is what [colorChange] gives for its datum, which is a colour unless
    both values of the cell are non-zero and its change is [NaN] (then the
    cell has no fill); and the tooltip of a cell is its current value, the
    rounded number, printed as a number. *)
Theorem fresh_chart_by_change (options : HeatmapOptions) (frame : DataFrame)
    (others : list DataFrame) (chart : Chart) (row : list Item) (item : Item) :
  HeatmapPanel format_3s interpolateBlues options {| series := frame :: others |} = Ok chart ->
  In row (rows chart) -> In item row ->
  colorBy (config chart) = COLOR_CELL_BY_change
  /\ exists v,
       getValues (mkConfig options) frame (datum item) = Ok v
       /\ colorChange (mkConfig options) frame (datum item) = Ok (fill item)
       /\ (fill item = None
           <-> (currentValue v =? 0)%float = false
               /\ (referenceValue v =? 0)%float = false
               /\ is_nan (change v) = true)
       /\ title item = NumberToString (currentValue v).
Proof.
  intros Hdraw Hrow Hitem.
  destruct (drawn_items _ _ _ _ _ _ Hdraw Hrow Hitem) as (cat & i & _ & _ & Hd).
  apply HeatmapPanel_inv in Hdraw. destruct Hdraw as [-> _].
  split; [reflexivity|].
  apply drawItem_inv in Hd. destruct Hd as (c0 & shown & v & Hc & Hs & Hv & ->).
  cbn [datum fill title].
  destruct (getValues_inv _ _ _ _ Hv) as (reference & Hcur & _).
  assert (shown = currentValue v) by congruence. subst shown.
  unfold getColor in Hc. cbn [colorBy mkConfig] in Hc.
  change (COLOR_CELL_BY_change =? COLOR_CELL_BY_change) with true in Hc.
  exists v. split_ands; try reflexivity; try assumption.
  unfold colorChange in Hc. rewrite Hv in Hc. cbn [bind] in Hc.
  injection Hc as <-. apply by_change_None.
Qed.

(** X3.  The two label lines of a drawn cell are placed together: the
    first line is moved up ([-0.4em]) exactly when the second line is drawn,
    stays centred ([.35em]) exactly when it is not, and a second line that
    is drawn sits at [1em]. *)
Theorem label_offsets (options : HeatmapOptions) (frame : DataFrame)
    (others : list DataFrame) (chart : Chart) (row : list Item) (item : Item) :
  HeatmapPanel format_3s interpolateBlues options {| series := frame :: others |} = Ok chart ->
  In row (rows chart) -> In item row ->
  (dy (line1 item) = "-0.4em" <-> line2 item <> None)
  /\ (dy (line1 item) = ".35em" <-> line2 item = None)
  /\ (forall span, line2 item = Some span -> dy span = "1em").
Proof.
  intros Hdraw Hrow Hitem.
  destruct (drawn_items _ _ _ _ _ _ Hdraw Hrow Hitem) as (cat & i & _ & _ & Hd).
  apply drawItem_inv in Hd. destruct Hd as (c0 & shown & v & _ & _ & _ & ->).
  cbn [line1 line2]. unfold valueLabel, changeLabel. cbn [dy].
  destruct (ToBoolean (currentValue v) && ToBoolean (referenceValue v)); split_ands.
  - split; [discriminate | reflexivity].
  - split; discriminate.
  - intros span H. injection H as <-. reflexivity.
  - split; [discriminate | congruence].
  - split; reflexivity.
  - discriminate.
Qed.

Lemma find_first {A : Type} (p : A -> bool) (l : list A) (x : A) :
  find p l = Some x ->
  exists l1 l2, l = (l1 ++ x :: l2)%list /\ p x = true /\ forall y, In y l1 -> p y = false.
Proof.
  induction l as [|a l IH]; intros H; [discriminate|]. cbn [find] in H.
  destruct (p a) eqn:E.
  - injection H as <-. exists [], l. split_ands; [reflexivity | assumption |].
    intros y [].
  - destruct (IH H) as (l1 & l2 & -> & Hx & Hl1).
    exists (a :: l1), l2. split_ands; [reflexivity | assumption |].
    intros y [<- | Hy]; [assumption | apply Hl1; assumption].
Qed.

(** X4.  Columns of the same name are not told apart: two cells of one row
    whose categories have the same name are the same cell (same fill,
    tooltip and labels), and its values and tooltip are read from the first
    kept column of that name; a later column of that name is never shown. *)
Theorem repeated_names_repeat_cells (options : HeatmapOptions) (frame : DataFrame)
    (others : list DataFrame) (chart : Chart) (row : list Item) (item1 item2 : Item) :
  HeatmapPanel format_3s interpolateBlues options {| series := frame :: others |} = Ok chart ->
  In row (rows chart) -> In item1 row -> In item2 row ->
  category (datum item1) = category (datum item2) ->
  item1 = item2
  /\ exists before field after,
       categoryFields (mkConfig options) frame = (before ++ field :: after)%list
       /\ name field = category (datum item1)
       /\ (forall other, In other before -> name other <> category (datum item1))
       /\ title item1
          = NumberToString (twoDecimals (get (values field) (pivotIndex (datum item1))))
       /\ exists v,
            getValues (mkConfig options) frame (datum item1) = Ok v
            /\ currentValue v = twoDecimals (get (values field) (pivotIndex (datum item1)))
            /\ referenceValue v
               = or_else (twoDecimals (get (values field)
                                          (pivotIndex (datum item1)
                                           + referenceChange (mkConfig options)))) 0.
Proof.
  intros Hdraw Hrow H1 H2 Hcat.
  apply HeatmapPanel_inv in Hdraw. destruct Hdraw as [_ Hrows].
  apply mapM_Ok_inv in Hrows.
  destruct (Forall2_In_r _ _ _ _ Hrows Hrow) as (i & _ & Hi).
  destruct (drawRow_items _ _ _ _ _ _ _ Hi H1) as (cat1 & Hin1 & Hd1).
  destruct (drawRow_items _ _ _ _ _ _ _ Hi H2) as (cat2 & _ & Hd2).
  pose proof (drawItem_datum _ _ _ _ Hd1) as E1.
  pose proof (drawItem_datum _ _ _ _ Hd2) as E2.
  rewrite E1, E2 in Hcat. cbn in Hcat. subst cat2.
  split; [congruence|].
  destruct (formatValue_Ok (mkConfig options) frame cat1 i Hin1) as (field & Hfind & Hfmt).
  destruct (find_first _ _ _ Hfind) as (before & after & Hsplit & Hname & Hbefore).
  exists before, field, after. rewrite E1. cbn [category pivotIndex].
  apply String.eqb_eq in Hname. split_ands; try assumption.
  - intros other Hother. apply Hbefore in Hother. apply String.eqb_neq in Hother.
    exact Hother.
  - apply drawItem_inv in Hd1. destruct Hd1 as (c & shown & v & _ & Hs & _ & ->).
    cbn [title]. congruence.
  - destruct (getValues_Ok (mkConfig options) frame cat1 i Hin1) as (field' & Hfind' & Hv).
    assert (field' = field) by congruence. subst field'.
    eexists. split; [exact Hv|]. split; reflexivity.
Qed.


(** *** Clicks *)

Lemma toggle_disabled_is_noop_any (frame : DataFrame) (chart : Chart) :
  toggleColor (config chart) = false ->
  toggleColoring interpolateBlues frame chart = Ok chart.
Proof. intros H. unfold toggleColoring. rewrite H. reflexivity. Qed.


Lemma Forall2_refl_on {A : Type} (R : A -> A -> Prop) (l : list A) :
  (forall a, R a a) -> Forall2 R l l.
Proof. intros H. induction l; constructor; auto. Qed.

(** X5.  A click that succeeds leaves the grid and the labels alone:
    the chart keeps its rows and cells, every cell keeps its datum, tooltip
    and both label lines, and the configuration keeps everything but the
    colour mode.  Only fills and mode can change. *)
Theorem click_keeps_labels (frame : DataFrame) (chart chart' : Chart) :
  toggleColoring interpolateBlues frame chart = Ok chart' ->
  Forall2 (Forall2 same_but_fill) (rows chart) (rows chart')
  /\ background (config chart') = background (config chart)
  /\ removeEmptyCols (config chart') = removeEmptyCols (config chart)
  /\ changeDirection (config chart') = changeDirection (config chart)
  /\ referenceChange (config chart') = referenceChange (config chart)
  /\ toggleColor (config chart') = toggleColor (config chart).
Proof.
  unfold toggleColoring. intros H.
  destruct (toggleColor (config chart)) eqn:Hon; cbn [negb] in H.
  - destruct (mapM _ (rows chart)) as [rows'|] eqn:E; [|discriminate].
    cbn [bind] in H. injection H as <-. cbn [config rows set_colorBy
      background removeEmptyCols changeDirection referenceChange toggleColor].
    split_ands; try reflexivity; [|exact Hon].
    apply mapM_Ok_inv in E.
    eapply Forall2_impl; [|exact E]. intros row row' Hrow. cbv beta in Hrow.
    apply mapM_Ok_inv in Hrow.
    eapply Forall2_impl; [|exact Hrow]. intros item item' Hitem. cbv beta in Hitem.
    destruct (getColor _ _ _ _) as [c|]; [|discriminate].
    cbn [bind] in Hitem. injection Hitem as <-. unfold same_but_fill. cbn. auto.
  - injection H as <-. split_ands; try reflexivity; try exact Hon.
    apply Forall2_refl_on. intros row. apply Forall2_refl_on. intros item.
    unfold same_but_fill. auto.
Qed.

(** X6.  In every chart an instance can show, the colour mode is one of
    the two modes, so the [default] branch of [getColor] is never taken:
    under the by-change mode the fill of every cell is what [colorChange]
    gives for it (no fill when both values are non-zero and the change is
    [NaN]), under the heatmap mode what the heatmap scale gives for its
    current value (no fill exactly when that value is [NaN]); and a click
    on such a chart never throws. *)
Theorem reachable_modes (options : HeatmapOptions) (frame : DataFrame)
    (others : list DataFrame) (chart : Chart) :
  reachable format_3s interpolateBlues options frame others chart ->
  (colorBy (config chart) = COLOR_CELL_BY_change
   \/ colorBy (config chart) = COLOR_CELL_BY_heatmap)
  /\ (forall row item, In row (rows chart) -> In item row ->
        exists v,
          getValues (mkConfig options) frame (datum item) = Ok v
          /\ (colorBy (config chart) = COLOR_CELL_BY_change ->
              colorChange (mkConfig options) frame (datum item) = Ok (fill item)
              /\ (fill item = None
                  <-> (currentValue v =? 0)%float = false
                      /\ (referenceValue v =? 0)%float = false
                      /\ is_nan (change v) = true))
          /\ (colorBy (config chart) = COLOR_CELL_BY_heatmap ->
              fill item
              = colorAsHeatmap interpolateBlues (mkConfig options) frame (currentValue v)
              /\ (fill item = None <-> is_nan (currentValue v) = true)))
  /\ (exists chart', toggleColoring interpolateBlues frame chart = Ok chart').
Proof.
  intros Hreach. apply reachable_shows in Hreach.
  pose proof Hreach as (Hmode & Hconfig & Hrows).
  split; [exact Hmode|]. split.
  - intros row item Hrow Hitem. apply mapM_Ok_inv in Hrows.
    destruct (Forall2_In_r _ _ _ _ Hrows Hrow) as (i & _ & Hi).
    destruct (drawRow_items _ _ _ _ _ _ _ Hi Hitem) as (cat & _ & Hd).
    apply drawItem_inv in Hd. destruct Hd as (c0 & shown & v & Hc & _ & Hv & ->).
    cbn [datum fill].
    assert (Egv : forall d, getValues (mkConfig options) frame d
                            = getValues (config chart) frame d).
    { intros d. rewrite Hconfig. reflexivity. }
    assert (Ehm : colorAsHeatmap interpolateBlues (mkConfig options) frame
                  = colorAsHeatmap interpolateBlues (config chart) frame).
    { rewrite Hconfig. reflexivity. }
    exists v. split; [rewrite Egv; exact Hv|].
    unfold getColor, colorChange, colorHeatmap in Hc.
    unfold colorChange. rewrite Egv, Ehm. rewrite Hv in *. cbn [bind] in *.
    split; intros E; rewrite E in Hc.
    + change (COLOR_CELL_BY_change =? COLOR_CELL_BY_change) with true in Hc.
      injection Hc as <-. split; [reflexivity | apply by_change_None].
    + change (COLOR_CELL_BY_heatmap =? COLOR_CELL_BY_change) with false in Hc.
      change (COLOR_CELL_BY_heatmap =? COLOR_CELL_BY_heatmap) with true in Hc.
      injection Hc as <-. split; [reflexivity|].
      unfold colorAsHeatmap, D3.scaleSequential.
      destruct (is_nan (currentValue v)); split; intros H;
        try reflexivity; discriminate H.
  - destruct (toggleColor (config chart)) eqn:Hon.
    + destruct (toggle_shows _ _ options frame chart Hreach Hon) as (chart' & Ht & _).
      eauto.
    + exists chart. apply toggle_disabled_is_noop_any. exact Hon.
Qed.


(** *** Lookups that fail *)

Lemma find_by_name_None (cat : string) (l : list Field) :
  ~ In cat (map name l) -> find (fun field => name field =? cat)%string l = None.
Proof.
  intros Hnot. destruct (find _ l) as [field|] eqn:E; [|reflexivity].
  apply find_some in E. destruct E as [Hin Hname]. apply String.eqb_eq in Hname.
  exfalso. apply Hnot. rewrite <- Hname. apply in_map. exact Hin.
Qed.

(** X7.  [getValues] returns values exactly for the cells of kept
    categories: for any other category name (a pruned column, the pivot
    column, an unknown name) the column lookup finds nothing and both
    [formatValue] and [getValues] throw a [TypeError]. *)
Theorem getValues_fails_iff (config : Config) (frame : DataFrame) (d : Cell) :
  ((exists v, getValues config frame d = Ok v) <-> In (category d) (categories config frame))
  /\ (~ In (category d) (categories config frame) ->
      exists msg,
        formatValue config frame d = Throw (TypeError msg)
        /\ getValues config frame d = Throw (TypeError msg)).
Proof.
  assert (Hthrow : ~ In (category d) (categories config frame) ->
            exists msg,
              formatValue config frame d = Throw (TypeError msg)
              /\ getValues config frame d = Throw (TypeError msg)).
  { intros Hnot. apply find_by_name_None in Hnot.
    assert (Hf : formatValue config frame d
                 = Throw (TypeError "Cannot read property 'values' of undefined")).
    { unfold formatValue. rewrite Hnot. reflexivity. }
    eexists. split; [exact Hf|]. unfold getValues. rewrite Hf. reflexivity. }
  split; [|exact Hthrow]. split.
  - intros [v Hv].
    destruct (in_dec string_dec (category d) (categories config frame)) as [Hin|Hnot];
      [exact Hin|].
    destruct (Hthrow Hnot) as (msg & _ & Hg). congruence.
  - intros Hin. destruct d as [cat i]. cbn [category] in Hin.
    destruct (getValues_Ok config frame cat i Hin) as (field & _ & Hv). eauto.
Qed.

(** X8.  The pivot column is never drawn as a category: every category
    name is the name of a column of the frame other than [pivot], and, the
    pruning flag being on, of one whose sum is strictly positive. *)
Theorem categories_are_measures (config : Config) (frame : DataFrame) (cat : string) :
  In cat (categories config frame) ->
  cat <> "pivot"
  /\ exists field,
       In field (fields frame) /\ name field = cat
       /\ (removeEmptyCols config = true -> (0 <? D3.sum (values field))%float = true).
Proof.
  unfold categories. intros Hin. apply in_map_iff in Hin.
  destruct Hin as (field & <- & Hfield).
  assert (Hbase : In field (baseCategoryFields frame)
                  /\ (removeEmptyCols config = true
                      -> (0 <? D3.sum (values field))%float = true)).
  { unfold categoryFields in Hfield. destruct (removeEmptyCols config); cbn [negb] in Hfield.
    - apply filter_In in Hfield. tauto.
    - split; [exact Hfield | discriminate]. }
  destruct Hbase as [Hbase Hsum]. unfold baseCategoryFields in Hbase.
  apply filter_In in Hbase. destruct Hbase as [Hin Hname].
  apply negb_true_iff, String.eqb_neq in Hname.
  split; [exact Hname|]. exists field. auto.
Qed.


(** *** A zero reference *)

(** Dividing the distance to zero by zero: never a finite number. *)
Lemma change_over_zero (c : float) :
  ((c - 0) / 0)%float
  = match Prim2SF c with
    | S754_nan | S754_zero _ => nan
    | S754_infinity s | S754_finite s _ _ => if s then neg_infinity else infinity
    end.
Proof.
  rewrite <- (SF2Prim_Prim2SF ((c - 0) / 0)), div_spec, sub_spec.
  change (Prim2SF 0) with (S754_zero false).
  destruct (Prim2SF c) as [s|s| |s m e]; try destruct s; reflexivity.
Qed.

Lemma positive_cases (c : float) :
  (0 <? c)%float = true ->
  exists m, Prim2SF c = S754_infinity false \/ exists e, Prim2SF c = S754_finite false m e.
Proof.
  rewrite ltb_spec. unfold SFltb. change (Prim2SF 0) with (S754_zero false).
  destruct (Prim2SF c) as [s|s| |s m e]; try destruct s; cbn; try discriminate;
    intros _; [exists 1%positive; left; reflexivity | exists m; right; eauto].
Qed.

Lemma negative_cases (c : float) :
  (c <? 0)%float = true ->
  exists m, Prim2SF c = S754_infinity true \/ exists e, Prim2SF c = S754_finite true m e.
Proof.
  rewrite ltb_spec. unfold SFltb. change (Prim2SF 0) with (S754_zero false).
  destruct (Prim2SF c) as [s|s| |s m e]; try destruct s; cbn; try discriminate;
    intros _; [exists 1%positive; left; reflexivity | exists m; right; eauto].
Qed.

(** X9.  With a zero reference the change is never a finite number: the
    reference value is then [+0], and the change is [+Infinity] for a
    positive current value, [-Infinity] for a negative one and [NaN] for a
    zero or [NaN] one.  The display never shows it: no percentage line is
    drawn, and the by-change colour is one of the two fixed shades, the
    scale at [0] (current value zero) or at [0.5]. *)
Theorem zero_reference (config : Config) (frame : DataFrame) (d : Cell) (v : Values) :
  getValues config frame d = Ok v ->
  (referenceValue v =? 0)%float = true ->
  referenceValue v = 0%float
  /\ ((0 <? currentValue v)%float = true -> change v = infinity)
  /\ ((currentValue v <? 0)%float = true -> change v = neg_infinity)
  /\ ((currentValue v =? 0)%float = true \/ is_nan (currentValue v) = true -> change v = nan)
  /\ changeLabel v = None
  /\ colorChange config frame d
     = Ok (if (currentValue v =? 0)%float then colorByChange 0 else colorByChange 0.5).
Proof.
  intros Hv Hzero.
  destruct (getValues_inv _ _ _ _ Hv) as (reference & _ & _ & Href & Hchange).
  assert (Hr : referenceValue v = 0%float).
  { rewrite Href in *. destruct (or_else_zero_cases reference) as [[Ht E] | [_ E]].
    - rewrite E in Hzero. apply ToBoolean_true in Ht. destruct Ht; congruence.
    - exact E. }
  rewrite Hr in Hchange. rewrite Hchange, change_over_zero.
  split_ands.
  - exact Hr.
  - intros H. destruct (positive_cases _ H) as (m & [-> | [e ->]]); reflexivity.
  - intros H. destruct (negative_cases _ H) as (m & [-> | [e ->]]); reflexivity.
  - intros [H | H].
    + destruct (eqb_zero_inv _ H) as [-> | ->]; reflexivity.
    + apply is_nan_Prim2SF in H. rewrite H. reflexivity.
  - unfold changeLabel. rewrite Hr. change (ToBoolean 0) with false.
    rewrite andb_false_r. reflexivity.
  - unfold colorChange. rewrite Hv. cbn [bind]. rewrite Hr.
    change (0 =? 0)%float with true. reflexivity.
Qed.

(** *** Entries that round to zero *)

Lemma small_below_1e21 (x : float) (s : bool) (m : positive) (e : Z) :
  Prim2SF x = S754_finite s m e -> e < 0 -> (1e21 <=? abs x)%float = false.
Proof.
  intros Hx He. rewrite leb_spec, abs_spec, Hx. cbn [SFabs].
  change (Prim2SF 1e21) with (S754_finite false 7629394531250000 17).
  unfold SFleb, SFcompare.
  destruct (Z.compare_spec 17 e) as [E|E|E]; [lia | lia | reflexivity].
Qed.


(** X10.  An entry that rounds to zero is treated as zero: when a kept
    column holds at some row a finite number of magnitude below half a
    hundredth ([200 * |x| < 1], exactly), the cell's current value is [0],
    its label is the dash, no percentage is drawn and its by-change colour
    is the neutral one. *)
Theorem tiny_entries_show_as_zero (config : Config) (frame : DataFrame)
    (cat : string) (i : Z) (field : Field) (x : float) (s : bool) (m : positive) (e : Z) :
  find (fun field => name field =? cat)%string (categoryFields config frame) = Some field ->
  index (values field) i = Some (JNumber x) ->
  Prim2SF x = S754_finite s m e ->
  200 * numerator m e < denominator e ->
  exists v,
    getValues config frame {| category := cat; pivotIndex := i |} = Ok v
    /\ currentValue v = 0%float
    /\ text (valueLabel format_3s v) = "-"
    /\ changeLabel v = None
    /\ colorChange config frame {| category := cat; pivotIndex := i |}
       = Ok (colorByChange 0).
Proof.
  intros Hfind Hindex Hx Htiny.
  assert (He : e < 0).
  { destruct (Z.ltb_spec e 0) as [H|H]; [exact H|]. exfalso.
    unfold numerator, denominator in Htiny.
    destruct (Z.leb_spec 0 e) as [H'|H']; [|lia].
    pose proof (Z.pow_pos_nonneg 2 e). nia. }
  assert (Hround : twoDecimals (JNumber x) = 0%float).
  { rewrite (twoDecimals_regular x s m e Hx (small_below_1e21 x s m e Hx He)).
    unfold round_hundredths.
    assert (Hn : round_half_up (numerator m e * 100) (denominator e) = 0).
    { unfold round_half_up. apply Z.div_small.
      pose proof (numerator_pos m e). pose proof (denominator_pos e). lia. }
    rewrite Hn. change (nearest_double 0 100) with 0%float.
    change (0 =? 0)%float with true. rewrite andb_false_r. reflexivity. }
  assert (Hcur : formatValue config frame {| category := cat; pivotIndex := i |}
                 = Ok 0%float).
  { unfold formatValue. cbn [category pivotIndex]. rewrite Hfind.
    unfold get. rewrite Hindex. fold (twoDecimals (JNumber x)). rewrite Hround.
    reflexivity. }
  assert (Hv : exists v, getValues config frame {| category := cat; pivotIndex := i |} = Ok v
                         /\ currentValue v = 0%float).
  { unfold getValues. rewrite Hcur. cbn [bind category pivotIndex].
    unfold formatValue. cbn [category pivotIndex]. rewrite Hfind. cbn [bind].
    eexists. split; reflexivity. }
  destruct Hv as (v & Hv & Hzero). exists v. split_ands.
  - exact Hv.
  - exact Hzero.
  - unfold valueLabel. cbn [text]. rewrite Hzero. reflexivity.
  - unfold changeLabel. rewrite Hzero. reflexivity.
  - unfold colorChange. rewrite Hv. cbn [bind]. rewrite Hzero. reflexivity.
Qed.

(** *** The heatmap domain *)

Lemma extent_rest_attained (l : list jsval) : forall lo hi a b,
  D3.extent_rest l lo hi = (a, b) -> (a = lo \/ In a l) /\ (b = hi \/ In b l).
Proof.
  induction l as [|v l IH]; intros lo hi a b H; cbn [D3.extent_rest] in H.
  - injection H as <- <-. auto.
  - destruct (not_nullish v).
    + apply IH in H. destruct H as [Ha Hb]. split.
      * destruct Ha as [-> | Ha]; [|right; right; exact Ha].
        destruct (js_gt lo v); [right; left; reflexivity | left; reflexivity].
      * destruct Hb as [-> | Hb]; [|right; right; exact Hb].
        destruct (js_lt hi v); [right; left; reflexivity | left; reflexivity].
    + apply IH in H. destruct H as [Ha Hb]. split.
      * destruct Ha as [-> | Ha]; [left; reflexivity | right; right; exact Ha].
      * destruct Hb as [-> | Hb]; [left; reflexivity | right; right; exact Hb].
Qed.

Lemma extent_rest_not_nullish (l : list jsval) : forall lo hi a b,
  not_nullish lo = true -> not_nullish hi = true ->
  D3.extent_rest l lo hi = (a, b) -> not_nullish a = true /\ not_nullish b = true.
Proof.
  induction l as [|v l IH]; intros lo hi a b Hlo Hhi H; cbn [D3.extent_rest] in H.
  - injection H as <- <-. auto.
  - destruct (not_nullish v) eqn:Ev.
    + apply IH in H; [exact H | |].
      * destruct (js_gt lo v); assumption.
      * destruct (js_lt hi v); assumption.
    + apply IH in H; assumption.
Qed.

(** The extent of a list is attained in it, unless nothing is comparable. *)
Lemma extent_attained (l : list jsval) (a b : jsval) :
  D3.extent l = (a, b) ->
  (a = JUndefined /\ b = JUndefined)
  \/ (In a l /\ In b l /\ not_nullish a = true /\ not_nullish b = true).
Proof.
  induction l as [|v l IH]; intros H; cbn [D3.extent] in H.
  - injection H as <- <-. left. auto.
  - destruct (not_nullish v && js_ge v v) eqn:E.
    + apply andb_true_iff in E. destruct E as [Ev _]. right.
      destruct (extent_rest_attained _ _ _ _ _ H) as [Ha Hb].
      destruct (extent_rest_not_nullish _ _ _ _ _ Ev Ev H) as [Na Nb].
      split_ands; try assumption.
      * destruct Ha as [-> | Ha]; [left; reflexivity | right; exact Ha].
      * destruct Hb as [-> | Hb]; [left; reflexivity | right; exact Hb].
    + destruct (IH H) as [Hu | (Ha & Hb & Na & Nb)]; [left; exact Hu|].
      right. split_ands; try assumption; right; assumption.
Qed.

(** X11.  The domain of the heatmap scale is attained: its two ends are
    either both [undefined] (no kept column holds a comparable value) or
    entries, neither [null] nor [undefined], of kept category columns. *)
Theorem heatmap_domain_attained (config : Config) (frame : DataFrame) (lo hi : jsval) :
  categoryExtent config frame = (lo, hi) ->
  (lo = JUndefined /\ hi = JUndefined)
  \/ (exists low_field high_field,
        In low_field (categoryFields config frame)
        /\ In high_field (categoryFields config frame)
        /\ In lo (values low_field) /\ In hi (values high_field)
        /\ not_nullish lo = true /\ not_nullish hi = true).
Proof.
  unfold categoryExtent. intros H.
  destruct (extent_attained _ _ _ H) as [Hu | (Ha & Hb & Na & Nb)]; [left; exact Hu|].
  right.
  assert (Hfrom : forall a, not_nullish a = true ->
            In a (flat_map (fun field => let '(l, h) := D3.extent (values field) in [l; h])
                           (categoryFields config frame)) ->
            exists field, In field (categoryFields config frame) /\ In a (values field)).
  { intros a Na' Hin. apply in_flat_map in Hin. destruct Hin as (field & Hfield & Hin).
    exists field. split; [exact Hfield|].
    destruct (D3.extent (values field)) as [l h] eqn:E.
    destruct (extent_attained _ _ _ E) as [[-> ->] | (Hl & Hh & _)].
    - destruct Hin as [<- | [<- | []]]; discriminate.
    - destruct Hin as [<- | [<- | []]]; assumption. }
  destruct (Hfrom lo Na Ha) as (f & Hf & Hlo).
  destruct (Hfrom hi Nb Hb) as (g & Hg & Hhi).
  exists f, g. split_ands; assumption.
Qed.


(** *** The earlier variant *)

Lemma mapM_map {A B C : Type} (h : A -> B) (f : B -> result C) (l : list A) :
  mapM f (map h l) = mapM (fun a => f (h a)) l.
Proof.
  induction l as [|a l IH]; [reflexivity|]. cbn [map mapM]. rewrite IH. reflexivity.
Qed.

Lemma mapM_related {A B C : Type} (R : B -> C -> Prop)
    (f : A -> result B) (g : A -> result C) (l : list A) :
  (forall a, In a l -> exists b c, f a = Ok b /\ g a = Ok c /\ R b c) ->
  exists lb lc, mapM f l = Ok lb /\ mapM g l = Ok lc /\ Forall2 R lb lc.
Proof.
  induction l as [|a l IH]; intros H.
  - exists [], []. split_ands; [reflexivity | reflexivity | constructor].
  - destruct (H a (or_introl eq_refl)) as (b & c & Hb & Hc & Hbc).
    destruct IH as (lb & lc & Hlb & Hlc & Hall); [intros; apply H; right; assumption|].
    exists (b :: lb), (c :: lc). cbn [mapM]. rewrite Hb, Hc, Hlb, Hlc.
    split_ands; [reflexivity | reflexivity | constructor; assumption].
Qed.

(** A cell of the earlier variant against the same cell of the current one,
    freshly drawn. *)
Lemma drawItemV1_same_cell (options : HeatmapOptions) (frame : DataFrame)
    (i : Z) (cat : string) :
  In cat (categories (mkConfig options) frame) ->
  exists old item,
    drawItemV1 format_3s (mkConfigV1 options) frame i cat = Ok old
    /\ drawItem format_3s interpolateBlues (mkConfig options) frame
         {| category := cat; pivotIndex := i |} = Ok item
    /\ same_cell old item.
Proof.
  intros Hin.
  destruct (drawItem_Ok format_3s interpolateBlues _ _ cat i Hin) as [item Hitem].
  pose proof Hitem as Hinv. apply drawItem_inv in Hinv.
  destruct Hinv as (c & shown & v & Hc & Hs & Hv & ->).
  assert (Hv1 : getValuesV1 (mkConfigV1 options) frame i
                  (i + v1_referenceChange (mkConfigV1 options)) cat = Ok v) by exact Hv.
  assert (Hs1 : formatValueV1 (mkConfigV1 options) frame cat i = Ok shown) by exact Hs.
  unfold getColor, colorChange in Hc. cbn [colorBy mkConfig] in Hc.
  change (COLOR_CELL_BY_change =? COLOR_CELL_BY_change) with true in Hc.
  rewrite Hv in Hc. cbn [bind] in Hc. injection Hc as <-.
  eexists. eexists. split; [|split; [exact Hitem|]].
  - unfold drawItemV1. rewrite Hv1, Hs1. cbn [bind]. reflexivity.
  - unfold same_cell. cbn. split_ands; reflexivity.
Qed.

(** X12.  The earlier variant of the component (without toggle and
    heatmap) and the current one agree: on the same options and data they
    throw the same error, or they draw grids of the same shape whose cells
    have the same category, fill, tooltip and label lines, the current
    variant being in its initial by-change mode. *)
Theorem earlier_variant_agrees (options : HeatmapOptions) (data : PanelData) :
  match HeatmapPanelV1 format_3s options data,
        HeatmapPanel format_3s interpolateBlues options data with
  | Ok old, Ok chart => Forall2 (Forall2 same_cell) old (rows chart)
  | Throw e, Throw e' => e = e'
  | _, _ => False
  end.
Proof.
  unfold HeatmapPanelV1, HeatmapPanel.
  destruct (series data) as [|frame others]; [reflexivity|].
  destruct (pivotAccesor frame); [|reflexivity].
  destruct (mapM_related (Forall2 same_cell)
              (fun pivotIndex =>
                 mapM (drawItemV1 format_3s (mkConfigV1 options) frame pivotIndex)
                      (categoriesV1 (mkConfigV1 options) frame))
              (drawRow format_3s interpolateBlues (mkConfig options) frame)
              (pivotIndices frame)) as (old & rs & Hold & Hrs & Hall).
  { intros i _. unfold drawRow. rewrite mapM_map.
    change (categoriesV1 (mkConfigV1 options) frame)
      with (categories (mkConfig options) frame).
    apply mapM_related. intros cat Hcat.
    apply drawItemV1_same_cell. exact Hcat. }
  rewrite Hold, Hrs. cbn [bind rows]. exact Hall.
Qed.

End MorePanelFacts.

(** ** The further facts at concrete tables *)

(** X1 at the scenario: three rows of one cell. *)
Lemma chart_is_grid_witness :
  exists chart,
    HeatmapPanel plain_format plain_ramp scenario_options {| series := [scenario] |}
    = Ok chart
    /\ List.length (rows chart) = Grafana.length scenario
    /\ Forall (fun row => List.length row
                          = List.length (categoryFields (mkConfig scenario_options) scenario))
              (rows chart)
    /\ map (map datum) (rows chart)
       = map (fun i => map (fun c => {| category := c; pivotIndex := i |})
                           (categories (mkConfig scenario_options) scenario))
             (D3.range (Grafana.length scenario)).
Proof.
  eexists. split.
  - vm_compute. reflexivity.
  - apply (chart_is_grid plain_format plain_ramp scenario_options scenario []).
    vm_compute. reflexivity.
Defined.

(** X2 at the first cell of [nan_table], whose change is [NaN]: it has no
    fill. *)
Lemma fresh_chart_by_change_witness :
  exists chart row item,
    HeatmapPanel plain_format plain_ramp scenario_options {| series := [nan_table] |}
    = Ok chart
    /\ In row (rows chart) /\ In item row
    /\ fill item = None
    /\ colorBy (config chart) = COLOR_CELL_BY_change
    /\ exists v,
         getValues (mkConfig scenario_options) nan_table (datum item) = Ok v
         /\ colorChange (mkConfig scenario_options) nan_table (datum item) = Ok (fill item)
         /\ (fill item = None
             <-> (currentValue v =? 0)%float = false
                 /\ (referenceValue v =? 0)%float = false
                 /\ is_nan (change v) = true)
         /\ title item = NumberToString (currentValue v).
Proof.
  assert (Hdraw : exists chart,
             HeatmapPanel plain_format plain_ramp scenario_options {| series := [nan_table] |}
             = Ok chart
             /\ exists row item, In row (rows chart) /\ In item row /\ fill item = None).
  { eexists. split; [vm_compute; reflexivity|].
    eexists. eexists. split; [|split].
    - cbn [rows In]. left. reflexivity.
    - cbn [In]. left. reflexivity.
    - reflexivity. }
  destruct Hdraw as (chart & Hchart & row & item & Hrow & Hitem & Hfill).
  exists chart, row, item. split; [exact Hchart|]. split; [exact Hrow|].
  split; [exact Hitem|]. split; [exact Hfill|].
  exact (fresh_chart_by_change plain_format plain_ramp scenario_options nan_table []
           chart row item Hchart Hrow Hitem).
Defined.

(** X3 at the scenario's first cell. *)
Lemma label_offsets_witness :
  exists chart row item,
    HeatmapPanel plain_format plain_ramp scenario_options {| series := [scenario] |}
    = Ok chart
    /\ In row (rows chart) /\ In item row
    /\ (dy (line1 item) = "-0.4em" <-> line2 item <> None)
    /\ (dy (line1 item) = ".35em" <-> line2 item = None)
    /\ (forall span, line2 item = Some span -> dy span = "1em").
Proof.
  assert (Hdraw : exists chart,
             HeatmapPanel plain_format plain_ramp scenario_options {| series := [scenario] |}
             = Ok chart
             /\ exists row item, In row (rows chart) /\ In item row).
  { eexists. split; [vm_compute; reflexivity|].
    eexists. eexists. split.
    - cbn [rows In]. left. reflexivity.
    - cbn [In]. left. reflexivity. }
  destruct Hdraw as (chart & Hchart & row & item & Hrow & Hitem).
  exists chart, row, item. split; [exact Hchart|]. split; [exact Hrow|].
  split; [exact Hitem|].
  exact (label_offsets plain_format plain_ramp scenario_options scenario []
           chart row item Hchart Hrow Hitem).
Defined.

(** X4 at [repeated_names]: the two cells of the first row are one and the
    same, and show the 1 of the first column, not the 30 of the second. *)
Lemma repeated_names_repeat_cells_witness :
  exists chart item1 item2,
    HeatmapPanel plain_format plain_ramp scenario_options {| series := [repeated_names] |}
    = Ok chart
    /\ nth_error (rows chart) 0 = Some [item1; item2]
    /\ title item1 = "1"
    /\ item1 = item2
    /\ exists before field after,
         categoryFields (mkConfig scenario_options) repeated_names
         = (before ++ field :: after)%list
         /\ name field = category (datum item1)
         /\ (forall other, In other before -> name other <> category (datum item1))
         /\ title item1
            = NumberToString (twoDecimals (get (values field) (pivotIndex (datum item1))))
         /\ exists v,
              getValues (mkConfig scenario_options) repeated_names (datum item1) = Ok v
              /\ currentValue v
                 = twoDecimals (get (values field) (pivotIndex (datum item1)))
              /\ referenceValue v
                 = or_else (twoDecimals (get (values field)
                                            (pivotIndex (datum item1)
                                             + referenceChange (mkConfig scenario_options))))
                           0.
Proof.
  assert (Hdraw : exists chart item1 item2,
             HeatmapPanel plain_format plain_ramp scenario_options
               {| series := [repeated_names] |} = Ok chart
             /\ nth_error (rows chart) 0 = Some [item1; item2]
             /\ title item1 = "1"
             /\ category (datum item1) = category (datum item2)).
  { eexists. eexists. eexists. split; [vm_compute; reflexivity|].
    split; [cbn [rows nth_error]; reflexivity|]. split; reflexivity. }
  destruct Hdraw as (chart & item1 & item2 & Hchart & Hrow & Htitle & Hcat).
  exists chart, item1, item2. split; [exact Hchart|]. split; [exact Hrow|].
  split; [exact Htitle|].
  apply (repeated_names_repeat_cells plain_format plain_ramp scenario_options
           repeated_names [] chart [item1; item2] item1 item2 Hchart).
  - apply nth_error_In in Hrow. exact Hrow.
  - left. reflexivity.
  - right. left. reflexivity.
  - exact Hcat.
Defined.

(** X5 at a click on the chart drawn from the scenario. *)
Lemma click_keeps_labels_witness :
  exists chart chart',
    HeatmapPanel plain_format plain_ramp scenario_options {| series := [scenario] |}
    = Ok chart
    /\ toggleColoring plain_ramp scenario chart = Ok chart'
    /\ Forall2 (Forall2 same_but_fill) (rows chart) (rows chart')
    /\ background (config chart') = background (config chart)
    /\ removeEmptyCols (config chart') = removeEmptyCols (config chart)
    /\ changeDirection (config chart') = changeDirection (config chart)
    /\ referenceChange (config chart') = referenceChange (config chart)
    /\ toggleColor (config chart') = toggleColor (config chart).
Proof.
  assert (Hclick : exists chart chart',
             HeatmapPanel plain_format plain_ramp scenario_options {| series := [scenario] |}
             = Ok chart
             /\ toggleColoring plain_ramp scenario chart = Ok chart').
  { eexists. eexists. split; [vm_compute; reflexivity | vm_compute; reflexivity]. }
  destruct Hclick as (chart & chart' & Hchart & Hclick).
  exists chart, chart'. split; [exact Hchart|]. split; [exact Hclick|].
  exact (click_keeps_labels plain_ramp scenario chart chart' Hclick).
Defined.

(** X6 at the chart drawn from the scenario and clicked once. *)
Lemma reachable_modes_witness :
  exists chart,
    reachable plain_format plain_ramp scenario_options scenario [] chart
    /\ colorBy (config chart) = COLOR_CELL_BY_heatmap
    /\ (colorBy (config chart) = COLOR_CELL_BY_change
        \/ colorBy (config chart) = COLOR_CELL_BY_heatmap)
    /\ (forall row item, In row (rows chart) -> In item row ->
          exists v,
            getValues (mkConfig scenario_options) scenario (datum item) = Ok v
            /\ (colorBy (config chart) = COLOR_CELL_BY_change ->
                colorChange (mkConfig scenario_options) scenario (datum item)
                = Ok (fill item)
                /\ (fill item = None
                    <-> (currentValue v =? 0)%float = false
                        /\ (referenceValue v =? 0)%float = false
                        /\ is_nan (change v) = true))
            /\ (colorBy (config chart) = COLOR_CELL_BY_heatmap ->
                fill item
                = colorAsHeatmap plain_ramp (mkConfig scenario_options) scenario
                    (currentValue v)
                /\ (fill item = None <-> is_nan (currentValue v) = true)))
    /\ (exists chart', toggleColoring plain_ramp scenario chart = Ok chart').
Proof.
  assert (Hreach : exists chart,
             reachable plain_format plain_ramp scenario_options scenario [] chart
             /\ colorBy (config chart) = COLOR_CELL_BY_heatmap).
  { eexists. split.
    - eapply reach_click.
      + apply reach_draw. vm_compute. reflexivity.
      + vm_compute. reflexivity.
    - reflexivity. }
  destruct Hreach as (chart & Hreach & Hmode).
  exists chart. split; [exact Hreach|]. split; [exact Hmode|].
  exact (reachable_modes plain_format plain_ramp scenario_options scenario [] chart Hreach).
Defined.

(** X7 at the scenario: values for [X], a [TypeError] for the pivot column
    asked as a category. *)
Lemma getValues_fails_iff_witness :
  (exists v, getValues (mkConfig scenario_options) scenario
               {| category := "X"; pivotIndex := 0 |} = Ok v)
  /\ exists msg,
       formatValue (mkConfig scenario_options) scenario
         {| category := "pivot"; pivotIndex := 0 |} = Throw (TypeError msg)
       /\ getValues (mkConfig scenario_options) scenario
            {| category := "pivot"; pivotIndex := 0 |} = Throw (TypeError msg).
Proof.
  split.
  - apply (proj1 (getValues_fails_iff (mkConfig scenario_options) scenario
                    {| category := "X"; pivotIndex := 0 |})).
    vm_compute. left. reflexivity.
  - apply (proj2 (getValues_fails_iff (mkConfig scenario_options) scenario
                    {| category := "pivot"; pivotIndex := 0 |})).
    vm_compute. intros [H | []]. discriminate.
Defined.

(** X8 at the scenario's category. *)
Lemma categories_are_measures_witness :
  "X" <> "pivot"
  /\ exists field,
       In field (fields scenario) /\ name field = "X"
       /\ (removeEmptyCols (mkConfig scenario_options) = true ->
           (0 <? D3.sum (values field))%float = true).
Proof.
  apply (categories_are_measures (mkConfig scenario_options) scenario "X").
  vm_compute. left. reflexivity.
Defined.

(** X9 at the scenario's cell (X, row B), whose reference is the stored 0
    of row C. *)
Lemma zero_reference_witness :
  let d := {| category := "X"; pivotIndex := 1 |} in
  let v := {| currentValue := 20; referenceValue := 0; change := infinity |} in
  getValues (mkConfig scenario_options) scenario d = Ok v
  /\ referenceValue v = 0%float
  /\ ((0 <? currentValue v)%float = true -> change v = infinity)
  /\ ((currentValue v <? 0)%float = true -> change v = neg_infinity)
  /\ ((currentValue v =? 0)%float = true \/ is_nan (currentValue v) = true -> change v = nan)
  /\ changeLabel v = None
  /\ colorChange (mkConfig scenario_options) scenario d
     = Ok (if (currentValue v =? 0)%float then colorByChange 0 else colorByChange 0.5).
Proof.
  intros d v.
  assert (Hv : getValues (mkConfig scenario_options) scenario d = Ok v)
    by (vm_compute; reflexivity).
  split; [exact Hv|].
  exact (zero_reference (mkConfig scenario_options) scenario d v Hv eq_refl).
Defined.

(** X10 at [tiny_table]: the entry 0.004 of row A. *)
Lemma tiny_entries_show_as_zero_witness :
  exists v,
    getValues (mkConfig scenario_options) tiny_table
      {| category := "X"; pivotIndex := 0 |} = Ok v
    /\ currentValue v = 0%float
    /\ text (valueLabel plain_format v) = "-"
    /\ changeLabel v = None
    /\ colorChange (mkConfig scenario_options) tiny_table
         {| category := "X"; pivotIndex := 0 |} = Ok (colorByChange 0).
Proof.
  apply (tiny_entries_show_as_zero plain_format (mkConfig scenario_options) tiny_table
           "X" 0 {| name := "X"; values := [JNumber 0.004; JNumber 10] |}
           0.004%float false 4611686018427388 (-60)).
  - vm_compute. reflexivity.
  - reflexivity.
  - vm_compute. reflexivity.
  - vm_compute. reflexivity.
Defined.

(** X11 at the scenario: the domain runs from the stored 0 to the 20. *)
Lemma heatmap_domain_attained_witness :
  categoryExtent (mkConfig scenario_options) scenario = (JNumber 0, JNumber 20)
  /\ ((JNumber 0 = JUndefined /\ JNumber 20 = JUndefined)
      \/ exists low_field high_field,
           In low_field (categoryFields (mkConfig scenario_options) scenario)
           /\ In high_field (categoryFields (mkConfig scenario_options) scenario)
           /\ In (JNumber 0) (values low_field) /\ In (JNumber 20) (values high_field)
           /\ not_nullish (JNumber 0) = true /\ not_nullish (JNumber 20) = true).
Proof.
  assert (H : categoryExtent (mkConfig scenario_options) scenario = (JNumber 0, JNumber 20))
    by (vm_compute; reflexivity).
  split; [exact H|].
  exact (heatmap_domain_attained (mkConfig scenario_options) scenario _ _ H).
Defined.
